(** * local-llm: the Express proxy in front of Ollama (src/src/server.ts)

    A shallow embedding of the final TypeScript server (the version with the
    log sink and the CORS middleware): the request handlers, the middleware
    chain and the 404 / error handlers, over JavaScript values.  The Ollama
    SDK, the JavaScript built-ins the handlers call ([Date], [toString]) and
    Express's route matcher are outside the repository; they are the fields
    of the [Runtime] interface below. *)

From Stdlib Require Import PrimFloat.
From stdpp Require Import gmap strings pretty list list_monad fin_maps.

Set Warnings "-register-all".

Local Open Scope string_scope.
Local Open Scope list_scope.
Local Open Scope Z_scope.

(** ** JavaScript values *)

(** What [JSON.parse] can produce, plus [undefined] (a missing property, or
    an object-literal field set to [undefined]).  Numbers are IEEE doubles. *)
Inductive value :=
| JUndefined
| JNull
| JBool (b : bool)
| JNum (x : float)
| JStr (s : string)
| JArr (l : list value)
| JObj (o : gmap string value).

(** ToBoolean: the operand of [!], [&&], [||] and [?:]. *)
Definition truthy (v : value) : bool :=
  match v with
  | JUndefined | JNull => false
  | JBool b => b
  | JNum x => negb (PrimFloat.is_zero x || PrimFloat.is_nan x)
  | JStr s => negb (String.eqb s "")
  | JArr _ | JObj _ => true
  end.

(** [Array.isArray]. *)
Definition isArray (v : value) : bool :=
  match v with JArr _ => true | _ => false end.

(** The elements of an array value. *)
Definition elements_of (v : value) : list value :=
  match v with JArr l => l | _ => [] end.

(** [o.k] on an object: a missing property reads as [undefined]. *)
Definition prop (o : gmap string value) (k : string) : value :=
  default JUndefined (o !! k).

(** [v?.k] for a property name that no primitive or array defines. *)
Definition opt_prop (v : value) (k : string) : value :=
  match v with JObj o => prop o k | _ => JUndefined end.

(** [a || b]. *)
Definition js_or (a b : value) : value := if truthy a then a else b.

(** [s.includes(sub)]: [sub] occurs in [s] at some offset. *)
Fixpoint includes (s sub : string) : bool :=
  String.prefix sub s ||
  match s with
  | EmptyString => false
  | String _ s' => includes s' sub
  end.

(** ** Exceptions, events and the handler monad *)

(** A thrown JavaScript value, as the [catch] blocks look at it:
    [error instanceof Error ? error.message : String(error)]. *)
Inductive thrown :=
| ErrorObj (message : string)
| NonError (as_string : string).

Definition error_text (e : thrown) : string :=
  match e with ErrorObj m => m | NonError s => s end.

Inductive outcome (A : Type) :=
| Returned (a : A)
| Thrown (e : thrown).
Arguments Returned {A} a.
Arguments Thrown {A} e.

Inductive log_level := INFO | ERROR | WARN.

(** [LogEntry] without [timestamp] and [details] (clock readings and free-form
    context, on which no response depends). *)
Record LogEntry := {
  log_level_of : log_level;
  log_message : string;
  log_endpoint : option string;
  log_method : option string;
  log_statusCode : option Z
}.

(** The argument object of [ollama.chat]. *)
Record ChatCall := {
  call_model : value;
  call_messages : list value;
  call_stream : bool
}.

(** What a handler does to the outside world, in order. *)
Inductive event :=
| EvLog (entry : LogEntry)
| EvChat (call : ChatCall)
| EvList.

(** A computation: the events it performed and how it ended. *)
Definition M (A : Type) : Type := list event * outcome A.

#[global] Instance M_ret : MRet M := λ A a, ([], Returned a).

#[global] Instance M_bind : MBind M := λ A B k m,
  match m with
  | (t, Returned a) => let '(t', r) := k a in (t ++ t', r)
  | (t, Thrown e) => (t, Thrown e)
  end.

Definition emit (e : event) : M unit := ([e], Returned tt).

Definition lift {A} (o : outcome A) : M A := ([], o).

(** [try { m } catch (error) { h error }]. *)
Definition try_catch {A} (m : M A) (h : thrown → M A) : M A :=
  match m with
  | (t, Returned a) => (t, Returned a)
  | (t, Thrown e) => let '(t', r) := h e in (t ++ t', r)
  end.

Definition trace {A} (m : M A) : list event := m.1.

Definition result {A} (m : M A) : outcome A := m.2.

(** The [ollama.chat] calls among the events. *)
Definition chat_calls (t : list event) : list ChatCall :=
  omap (λ e, match e with EvChat c => Some c | _ => None end) t.

(** ** Requests and responses *)

(** [req] as the route handlers see it, after [express.json()].  [req.body]
    is the parsed object; a body of another shape (an array, or none at all)
    has none of the properties the handlers read and stands as the empty
    object. *)
Record Request := {
  req_method : string;
  req_path : string;
  req_body : gmap string value
}.

(** A request as it arrives: [in_json] is what [express.json()] makes of the
    payload, a parsed body or the error it passes to [next]. *)
Record Incoming := {
  in_method : string;
  in_path : string;
  in_json : outcome (gmap string value)
}.

(** [res]: the status code, the headers set with [setHeader], the body sent
    with [json] ([None]: nothing, as after [end()]). *)
Record Response := {
  res_statusCode : Z;
  res_headers : gmap string string;
  res_body : option value
}.

Definition fresh_response : Response :=
  {| res_statusCode := 200; res_headers := ∅; res_body := None |}.

Definition setHeader (k v : string) (res : Response) : Response :=
  {| res_statusCode := res_statusCode res;
     res_headers := <[k := v]> (res_headers res);
     res_body := res_body res |}.

Definition status (code : Z) (res : Response) : Response :=
  {| res_statusCode := code;
     res_headers := res_headers res;
     res_body := res_body res |}.

Definition json (v : value) (res : Response) : Response :=
  {| res_statusCode := res_statusCode res;
     res_headers := res_headers res;
     res_body := Some v |}.

Definition end_ (res : Response) : Response :=
  {| res_statusCode := res_statusCode res;
     res_headers := res_headers res;
     res_body := None |}.

(** ** The collaborators outside the repository *)

Class Runtime := {
  (** [await ollama.chat(call)]: the completion object, or a rejection. *)
  ollama_chat : ChatCall → outcome (gmap string value);
  (** [await ollama.list()]: the [models] field of the answer when it has
      one, or a rejection. *)
  ollama_list : outcome (option (list (gmap string value)));
  (** [new Date(v).toISOString()], which throws on an invalid date. *)
  date_toISOString : value → outcome string;
  (** [new Date().toISOString()]. *)
  now_toISOString : string;
  (** [v.toString()]. *)
  js_toString : value → value;
  (** Express's matcher: does a route registered for [verb] and [pattern]
      take a request with this method and path? *)
  route_matches : string → string → string → string → bool
}.

(** ** The log sink *)

(** [writeLog]: one line appended to the log file and echoed on the console. *)
Definition writeLog (entry : LogEntry) : M unit := emit (EvLog entry).

Definition logError (message : string) (error : thrown)
    (req : option Request) (statusCode : option Z) : M unit :=
  writeLog {| log_level_of := ERROR; log_message := message;
              log_endpoint := req_path <$> req;
              log_method := req_method <$> req;
              log_statusCode := statusCode |}.

Definition logInfo (message : string) : M unit :=
  writeLog {| log_level_of := INFO; log_message := message;
              log_endpoint := None; log_method := None;
              log_statusCode := None |}.

Definition logWarn (message : string) : M unit :=
  writeLog {| log_level_of := WARN; log_message := message;
              log_endpoint := None; log_method := None;
              log_statusCode := None |}.

(** ** The handlers *)

Section Handlers.
Context `{Runtime}.

(** [await ollama.chat(call)], recorded. *)
Definition chat (call : ChatCall) : M (gmap string value) :=
  emit (EvChat call);; lift (ollama_chat call).

(** [await ollama.list()], recorded. *)
Definition list_ : M (option (list (gmap string value))) :=
  emit EvList;; lift ollama_list.

(** [v ? new Date(v).toISOString() : undefined]. *)
Definition iso_or_undefined (v : value) : M value :=
  if truthy v then s ← lift (date_toISOString v); mret (JStr s)
  else mret JUndefined.

(** [v?.toString()]. *)
Definition opt_toString (v : value) : value :=
  match v with
  | JUndefined | JNull => JUndefined
  | _ => js_toString v
  end.

(** The body of the 400 answer. *)
Definition missing_field_body : value :=
  JObj {[ "success" := JBool false;
          "error" := JStr "Missing required field: message or messages" ]}.

(** [chatMessages] as prepared from the two body fields: the [messages]
    array itself, else the single [message] wrapped as a user turn. *)
Definition chatMessages_of (message messages : value) : list value :=
  if truthy messages && isArray messages
  then elements_of messages
  else if truthy message
  then [JObj {[ "role" := JStr "user"; "content" := message ]}]
  else [].

(** [const { message, model = 'llama3.1', messages } = req.body]: the
    default replaces only [undefined]. *)
Definition model_of (body : gmap string value) : value :=
  match prop body "model" with
  | JUndefined => JStr "llama3.1"
  | v => v
  end.

(** The [catch] block of the chat handler. *)
Definition chat_catch (req : Request) (res : Response) (error : thrown)
    : M Response :=
  let errorMessage := error_text error in
  if includes errorMessage "connect" || includes errorMessage "ECONNREFUSED"
     || includes errorMessage "fetch failed"
  then
    logError "Ollama connection error" error (Some req) (Some 503);;
    mret (json (JObj {[
      "success" := JBool false;
      "error" := JStr "Ollama service unavailable";
      "message" := JStr "Could not connect to Ollama. Make sure Ollama is running and accessible." ]})
      (status 503 res))
  else if includes errorMessage "model"
  then
    logError "Model not found" error (Some req) (Some 404);;
    mret (json (JObj {[
      "success" := JBool false;
      "error" := JStr "Model not found";
      "message" := JStr errorMessage ]})
      (status 404 res))
  else
    logError "Error calling Ollama API" error (Some req) (Some 500);;
    mret (json (JObj {[
      "success" := JBool false;
      "error" := JStr "Error calling Ollama";
      "message" := js_or (JStr errorMessage) (JStr "Unknown error occurred") ]})
      (status 500 res)).

(** [app.post('/api/chat', ...)]. *)
Definition chat_handler (req : Request) (res : Response) : M Response :=
  try_catch
    (let message := prop (req_body req) "message" in
     let model := model_of (req_body req) in
     let messages := prop (req_body req) "messages" in
     if negb (truthy message) && negb (truthy messages)
     then
       logWarn "Validation error: Missing message or messages field";;
       mret (json missing_field_body (status 400 res))
     else
       let chatMessages := chatMessages_of message messages in
       logInfo "Calling Ollama API";;
       response ← chat {| call_model := model;
                          call_messages := chatMessages;
                          call_stream := false |};
       logInfo "Ollama API call successful";;
       created_at ← iso_or_undefined (prop response "created_at");
       mret (json (JObj {[
         "success" := JBool true;
         "model" := model;
         "response" := js_or (opt_prop (prop response "message") "content")
                             (opt_toString (prop response "message"));
         "done" := prop response "done";
         "created_at" := created_at;
         "total_duration" := prop response "total_duration";
         "load_duration" := prop response "load_duration";
         "prompt_eval_count" := prop response "prompt_eval_count";
         "prompt_eval_duration" := prop response "prompt_eval_duration";
         "eval_count" := prop response "eval_count";
         "eval_duration" := prop response "eval_duration" ]})
         res))
    (chat_catch req res).

End Handlers.

Section Server.
Context `{Runtime}.

(** One descriptor of the [/api/models] answer. *)
Definition reshape_model (model : gmap string value) : M value :=
  modified_at ← iso_or_undefined (prop model "modified_at");
  mret (JObj {[ "name" := prop model "name";
                "modified_at" := modified_at;
                "size" := prop model "size";
                "digest" := prop model "digest" ]}).

(** [app.get('/api/models', ...)]. *)
Definition models_handler (req : Request) (res : Response) : M Response :=
  try_catch
    (logInfo "Fetching available models";;
     response ← list_;
     logInfo "Models fetched successfully";;
     models ← mapM reshape_model (default [] response);
     mret (json (JObj {[ "success" := JBool true;
                         "models" := JArr models ]}) res))
    (λ error,
       logError "Error fetching models" error (Some req) (Some 500);;
       mret (json (JObj {[
         "success" := JBool false;
         "error" := JStr "Error fetching models";
         "message" := JStr (error_text error) ]})
         (status 500 res))).

(** [app.get('/health', ...)]. *)
Definition health_handler (req : Request) (res : Response) : M Response :=
  mret (json (JObj {[ "status" := JStr "ok";
                      "message" := JStr "Server is running";
                      "timestamp" := JStr now_toISOString ]}) res).

(** [app.options('/api/chat', ...)] and [app.options('/api/models', ...)]. *)
Definition options_handler (req : Request) (res : Response) : M Response :=
  mret (end_ (status 200 res)).

(** The body of the 404 answer. *)
Definition not_found_body (method path : string) : value :=
  JObj {[ "success" := JBool false;
          "error" := JStr "Not found";
          "message" := JStr ("Route " +:+ method +:+ " " +:+ path +:+ " not found") ]}.

(** The 404 handler, registered after all routes. *)
Definition not_found_handler (req : Request) (res : Response) : M Response :=
  logWarn "Route not found";;
  mret (json (not_found_body (req_method req) (req_path req)) (status 404 res)).

(** [err.message] of a thrown value. *)
Definition message_of (err : thrown) : value :=
  match err with ErrorObj m => JStr m | NonError _ => JUndefined end.

(** The error handler, registered last. *)
Definition error_handler (err : thrown) (req : Request) (res : Response)
    : M Response :=
  logError "Unhandled error in Express middleware" err (Some req) (Some 500);;
  mret (json (JObj {[ "success" := JBool false;
                      "error" := JStr "Internal server error";
                      "message" := message_of err ]})
        (status 500 res)).

(** The routes in registration order: verb, path pattern, handler. *)
Definition routes : list (string * string * (Request → Response → M Response)) :=
  [ ("GET", "/health", health_handler);
    ("OPTIONS", "/api/chat", options_handler);
    ("OPTIONS", "/api/models", options_handler);
    ("POST", "/api/chat", chat_handler);
    ("GET", "/api/models", models_handler) ].

Definition route_takes (req : Request)
    (r : string * string * (Request → Response → M Response)) : bool :=
  route_matches r.1.1 r.1.2 (req_method req) (req_path req).

(** The first route that takes the request, else the 404 handler. *)
Definition router (req : Request) (res : Response) : M Response :=
  match find (route_takes req) routes with
  | Some r => r.2 req res
  | None => not_found_handler req res
  end.

(** The CORS middleware's four [setHeader] calls. *)
Definition cors_headers (res : Response) : Response :=
  setHeader "Access-Control-Max-Age" "86400"
    (setHeader "Access-Control-Allow-Headers"
       "Origin, X-Requested-With, Content-Type, Accept, Authorization"
       (setHeader "Access-Control-Allow-Methods" "GET, POST, PUT, DELETE, OPTIONS"
          (setHeader "Access-Control-Allow-Origin" "*" res))).

(** The request logger around the rest of the chain: one entry on arrival,
    one when the response has been sent. *)
Definition logged (req : Request) (next : M Response) : M Response :=
  logInfo ("Request: " +:+ req_method req +:+ " " +:+ req_path req);;
  res ← next;
  writeLog {| log_level_of := if 400 <=? res_statusCode res then ERROR else INFO;
              log_message := "Response: " +:+ req_method req +:+ " " +:+ req_path req;
              log_endpoint := Some (req_path req);
              log_method := Some (req_method req);
              log_statusCode := Some (res_statusCode res) |};;
  mret res.

(** The whole middleware chain on one request: CORS (with the preflight
    short-circuit), [express.json()], the request logger, the routes, the 404
    handler; an error passed to [next] skips to the error handler. *)
Definition app (i : Incoming) : M Response :=
  let res := cors_headers fresh_response in
  if String.eqb (in_method i) "OPTIONS"
  then mret (end_ (status 200 res))
  else
    match in_json i with
    | Thrown err =>
        error_handler err
          {| req_method := in_method i; req_path := in_path i; req_body := ∅ |}
          res
    | Returned body =>
        let req := {| req_method := in_method i; req_path := in_path i;
                      req_body := body |} in
        logged req (router req res)
    end.

End Server.

(** ** Sample runtimes *)

Definition sample_completion : gmap string value :=
  {[ "message" := JObj {[ "role" := JStr "assistant"; "content" := JStr "Hello!" ]};
     "done" := JBool true;
     "eval_count" := JNum 25%float ]}.

Definition sample_models : list (gmap string value) :=
  [ {[ "name" := JStr "llama3.1"; "modified_at" := JStr "2024-01-01T00:00:00.000Z";
       "size" := JNum 4661224676%float; "digest" := JStr "sha256:46e0c10c039e" ]};
    {[ "name" := JStr "mistral"; "size" := JNum 4109865159%float;
       "digest" := JStr "sha256:61e88e884507" ]} ].

(** Routes matched on the exact verb and the exact path. *)
Definition exact_match (verb pattern method path : string) : bool :=
  String.eqb verb method && String.eqb pattern path.

(** A daemon that answers every call. *)
Definition healthy : Runtime := {|
  ollama_chat := λ _, Returned sample_completion;
  ollama_list := Returned (Some sample_models);
  date_toISOString := λ v,
    match v with
    | JStr s => Returned s
    | _ => Thrown (ErrorObj "Invalid time value")
    end;
  now_toISOString := "2024-01-01T00:00:00.000Z";
  js_toString := λ _, JStr "[object Object]";
  route_matches := exact_match
|}.

(** A daemon whose chat operation rejects with the given message. *)
Definition failing (message : string) : Runtime := {|
  ollama_chat := λ _, Thrown (ErrorObj message);
  ollama_list := Thrown (ErrorObj message);
  date_toISOString := λ _, Thrown (ErrorObj "Invalid time value");
  now_toISOString := "2024-01-01T00:00:00.000Z";
  js_toString := λ _, JStr "[object Object]";
  route_matches := exact_match
|}.

Definition post_chat (body : gmap string value) : Request :=
  {| req_method := "POST"; req_path := "/api/chat"; req_body := body |}.

(** ** Specification vocabulary *)

(** [sub] is a substring of [s]. *)
Definition contains (s sub : string) : Prop :=
  ∃ pre post, s = pre +:+ sub +:+ post.

(** A body field that is absent, the empty string or the empty array. *)
Definition absent_or_empty (v : value) : Prop :=
  v = JUndefined ∨ v = JStr "" ∨ v = JArr [].

(** Two bodies that agree on every field but [field]. *)
Definition differ_only_in (field : string) (b1 b2 : gmap string value) : Prop :=
  ∀ k, k ≠ field → b1 !! k = b2 !! k.

(** The argument object the chat handler builds for [ollama.chat]. *)
Definition call_of (body : gmap string value) : ChatCall :=
  {| call_model := model_of body;
     call_messages := chatMessages_of (prop body "message") (prop body "messages");
     call_stream := false |}.

(** The validation of the chat handler lets the body through. *)
Definition accepted (body : gmap string value) : bool :=
  negb (negb (truthy (prop body "message")) && negb (truthy (prop body "messages"))).

(** A response whose body says [success: true]. *)
Definition succeeded (resp : Response) : Prop :=
  ∃ o, res_body resp = Some (JObj o) ∧ o !! "success" = Some (JBool true).

(** [out] is the descriptor [model] with its timestamp put in ISO form (or
    left out when it has none), and nothing else changed. *)
Definition reshaped `{Runtime} (model : gmap string value) (out : value) : Prop :=
  ∃ modified_at,
    out = JObj {[ "name" := prop model "name";
                  "modified_at" := modified_at;
                  "size" := prop model "size";
                  "digest" := prop model "digest" ]} ∧
    if truthy (prop model "modified_at")
    then ∃ s, date_toISOString (prop model "modified_at") = Returned s ∧
              modified_at = JStr s
    else modified_at = JUndefined.

(** A POST to an unregistered path whose payload [express.json()] cannot
    parse. *)
Definition malformed_post : Incoming :=
  {| in_method := "POST"; in_path := "/nope";
     in_json := Thrown (ErrorObj "Unexpected token } in JSON at position 1") |}.

(** A GET to an unregistered path. *)
Definition stray_get : Incoming :=
  {| in_method := "GET"; in_path := "/nope"; in_json := Returned ∅ |}.

(** ** Further server code *)

(** An adapter operation among the events, of either kind. *)
Definition is_adapter_call (e : event) : bool :=
  match e with
  | EvLog _ => false
  | EvChat _ | EvList => true
  end.

Definition adapter_calls (t : list event) : list event :=
  List.filter is_adapter_call t.

(** The log entries among the events. *)
Definition log_entries (t : list event) : list LogEntry :=
  omap (λ e, match e with EvLog entry => Some entry | _ => None end) t.

(** [checkOllamaConnection], run once the server listens (its console lines
    are not events). *)
Definition checkOllamaConnection `{Runtime} : M unit :=
  try_catch
    (list_;;
     logInfo "Ollama connection verified")
    (λ error, logWarn "Ollama not accessible on startup").

(** The [catch] block of the chat handler in the first [server.ts] (before
    the log sink): it writes to the console only, and knows two connection
    keywords. *)
Definition chat_catch_early (res : Response) (error : thrown) : Response :=
  let errorMessage := error_text error in
  if includes errorMessage "connect" || includes errorMessage "ECONNREFUSED"
  then
    json (JObj {[
      "success" := JBool false;
      "error" := JStr "Ollama service unavailable";
      "message" := JStr "Could not connect to Ollama. Make sure Ollama is running and accessible." ]})
      (status 503 res)
  else if includes errorMessage "model"
  then
    json (JObj {[
      "success" := JBool false;
      "error" := JStr "Model not found";
      "message" := JStr errorMessage ]})
      (status 404 res)
  else
    json (JObj {[
      "success" := JBool false;
      "error" := JStr "Error calling Ollama";
      "message" := js_or (JStr errorMessage) (JStr "Unknown error occurred") ]})
      (status 500 res).



(** A [Date] that knows one timestamp and finds every other value invalid. *)
Definition sample_date (v : value) : outcome string :=
  match v with
  | JStr "2024-01-01T00:00:00Z" => Returned "2024-01-01T00:00:00.000Z"
  | _ => Thrown (ErrorObj "Invalid time value")
  end.

(** A daemon whose completion carries the given [message] and [created_at]. *)
Definition answering (message created_at : value) : Runtime := {|
  ollama_chat := λ _, Returned {[ "message" := message;
                                  "created_at" := created_at;
                                  "done" := JBool true ]};
  ollama_list := Returned None;
  date_toISOString := sample_date;
  now_toISOString := "2024-01-01T00:00:00.000Z";
  js_toString := λ _, JStr "[object Object]";
  route_matches := exact_match
|}.

(** A daemon that lists the given descriptors. *)
Definition listing (models : list (gmap string value)) : Runtime := {|
  ollama_chat := λ _, Returned sample_completion;
  ollama_list := Returned (Some models);
  date_toISOString := sample_date;
  now_toISOString := "2024-01-01T00:00:00.000Z";
  js_toString := λ _, JStr "[object Object]";
  route_matches := exact_match
|}.

(** ** The chat UI and its configuration (client/src) *)

(** What a [catch (err)] of the UI can tell about [err]: a [TypeError], some
    other [Error], or a value that is no [Error]. *)
Inductive caught :=
| TypeError_ (message : string)
| Error_ (message : string)
| NotAnError.

Section Config.
(** [String(v)] for a value that is not a string, as a template literal
    renders it. *)
Variable js_String : value → string.
(** The message of the [TypeError] thrown when [undefined] or [null] is
    destructured. *)
Variable cannot_destructure : string.

(** [`${v}`]. *)
Definition interpolate (v : value) : string :=
  match v with
  | JStr s => s
  | _ => js_String v
  end.

(** The validation at the head of [config.ts] (the version that has one):
    a configuration without a usable [server.host] and [server.port] gets
    the default server. *)
Definition validate (config : gmap string value) : gmap string value :=
  if negb (truthy (prop config "server"))
     || negb (truthy (opt_prop (prop config "server") "host"))
     || negb (truthy (opt_prop (prop config "server") "port"))
  then <["server" := JObj {[ "host" := JStr "localhost";
                             "port" := JNum 3000%float ]}]> config
  else config.

(** [getApiBaseUrl]. *)
Definition getApiBaseUrl (config : gmap string value) : outcome string :=
  match prop config "server" with
  | JUndefined | JNull => Thrown (ErrorObj cannot_destructure)
  | server =>
      Returned ("http://" +:+ interpolate (opt_prop server "host")
                +:+ ":" +:+ interpolate (opt_prop server "port"))
  end.

(** [s.startsWith(sub)]. *)
Definition startsWith (s sub : string) : bool := String.prefix sub s.

(** [s.slice(1)]. *)
Definition slice1 (s : string) : string :=
  match s with
  | EmptyString => EmptyString
  | String _ rest => rest
  end.

(** [getApiUrl]. *)
Definition getApiUrl (config : gmap string value) (endpoint : string)
    : outcome string :=
  match getApiBaseUrl config with
  | Returned baseUrl =>
      let cleanEndpoint :=
        if startsWith endpoint "/" then slice1 endpoint else endpoint in
      Returned (baseUrl +:+ "/" +:+ cleanEndpoint)
  | Thrown e => Thrown e
  end.

End Config.

Inductive Role := user | assistant.

(** [Message] of App.tsx. *)
Record Message := {
  msg_role : Role;
  msg_content : value;
  msg_timestamp : string
}.

(** The state of the [App] component. *)
Record UiState := {
  ui_messages : list Message;
  ui_input : string;
  ui_loading : bool;
  ui_error : value;
  ui_model : string
}.

(** What [fetch] was asked: the URL and the object given to
    [JSON.stringify]. *)
Record FetchRequest := {
  rq_url : string;
  rq_body : gmap string value
}.

(** A [Response] of [fetch]: [response.ok], the status, the status text and
    what [response.json()] settles to. *)
Record HttpAnswer := {
  ans_ok : bool;
  ans_status : Z;
  ans_statusText : string;
  ans_json : caught + value
}.

(** How the [fetch] of one send ends. *)
Inductive fetched :=
| FetchRejected (err : caught)
| FetchAnswered (answer : HttpAnswer).

(** What the [try] block of [sendMessage] comes to when it does not throw. *)
Inductive settled :=
| Reply (content : value)
| Failure (error : value).

Definition newline : string := String (Ascii.ascii_of_nat 10) "".

Section App.
(** [String.prototype.trim]. *)
Variable trim : string → string.
(** [String(v)] for a value that is not a string. *)
Variable js_String : value → string.
(** The message of the [TypeError] thrown when a property, given by name, is
    read from [null]. *)
Variable null_read_message : string → string.
(** What [getApiBaseUrl()] and [getApiUrl('/api/chat')] return. *)
Variable baseUrl : string.
Variable chatUrl : string.

(** [data.k], which throws on [null]. *)
Definition read (data : value) (k : string) : caught + value :=
  match data with
  | JUndefined | JNull => inl (TypeError_ (null_read_message k))
  | _ => inr (opt_prop data k)
  end.

(** The [try] block of [sendMessage], from the settled [fetch] on. *)
Definition try_send (f : fetched) : caught + settled :=
  match f with
  | FetchRejected err => inl err
  | FetchAnswered response =>
      if negb (ans_ok response)
      then
        let errorData :=
          match ans_json response with
          | inr data => data
          | inl _ => JObj ∅
          end in
        match read errorData "message" with
        | inl err => inl err
        | inr message =>
            inl (Error_ (interpolate js_String
              (js_or message
                 (js_or (opt_prop errorData "error")
                    (JStr ("Server error: " +:+ pretty (ans_status response)
                           +:+ " " +:+ ans_statusText response))))))
        end
      else
        match ans_json response with
        | inl err => inl err
        | inr data =>
            match read data "success" with
            | inl err => inl err
            | inr success =>
                if truthy success && truthy (opt_prop data "response")
                then inr (Reply (opt_prop data "response"))
                else inr (Failure
                  (js_or (opt_prop data "error")
                     (js_or (opt_prop data "message")
                        (JStr "Failed to get response"))))
            end
        end
  end.

(** The text shown when [fetch] itself failed. *)
Definition cannot_connect_text : string :=
  "Cannot connect to API server at " +:+ baseUrl +:+ ". " +:+ newline
  +:+ "          " +:+ newline
  +:+ "Possible issues:" +:+ newline
  +:+ "- Server is not running" +:+ newline
  +:+ "- CORS is blocking the request" +:+ newline
  +:+ "- Network connectivity issue" +:+ newline
  +:+ "- Firewall blocking the connection" +:+ newline
  +:+ newline
  +:+ "Please check:" +:+ newline
  +:+ "1. The Express server is running on " +:+ baseUrl +:+ newline
  +:+ "2. CORS is enabled on the server" +:+ newline
  +:+ "3. Your network allows connections to this IP".

(** [errorMessage] as the [catch] block of [sendMessage] works it out. *)
Definition catch_message (err : caught) : string :=
  match err with
  | TypeError_ message =>
      if includes message "Failed to fetch" || includes message "Load failed"
      then cannot_connect_text
      else "Network error: " +:+ message
  | Error_ message => message
  | NotAnError => "Network error occurred"
  end.

(** [sendMessage] up to the [fetch]: nothing when the trimmed input is empty
    or a request is in flight; else the user turn is appended, the input and
    the error are cleared, [loading] is set, and the request goes out. *)
Definition send_begin (now : string) (st : UiState)
    : option (UiState * FetchRequest) :=
  if String.eqb (trim (ui_input st)) "" || ui_loading st
  then None
  else
    let userMessage :=
      {| msg_role := user; msg_content := JStr (trim (ui_input st));
         msg_timestamp := now |} in
    Some ({| ui_messages := ui_messages st ++ [userMessage];
             ui_input := "";
             ui_loading := true;
             ui_error := JNull;
             ui_model := ui_model st |},
          {| rq_url := chatUrl;
             rq_body := {[ "message" := msg_content userMessage;
                           "model" := JStr (ui_model st) ]} |}).

(** [sendMessage] from the settled [fetch] on, [finally] included. *)
Definition send_finish (now : string) (f : fetched) (st : UiState) : UiState :=
  let messages :=
    match try_send f with
    | inr (Reply content) =>
        ui_messages st ++ [ {| msg_role := assistant; msg_content := content;
                               msg_timestamp := now |} ]
    | _ => ui_messages st
    end in
  let error :=
    match try_send f with
    | inr (Reply _) => ui_error st
    | inr (Failure error) => error
    | inl err => JStr (catch_message err)
    end in
  {| ui_messages := messages;
     ui_input := ui_input st;
     ui_loading := false;
     ui_error := error;
     ui_model := ui_model st |}.

(** [clearChat]. *)
Definition clearChat (st : UiState) : UiState :=
  {| ui_messages := [];
     ui_input := ui_input st;
     ui_loading := ui_loading st;
     ui_error := JNull;
     ui_model := ui_model st |}.

End App.

(** The proxy's response as [fetch] hands it to the UI: [ok] for a status
    from 200 to 299, and the object given to [res.json] read back by
    [response.json()] (an empty body does not parse). *)
Definition over_the_wire (statusText : string) (resp : Response) : HttpAnswer :=
  {| ans_ok := (200 <=? res_statusCode resp) && (res_statusCode resp <=? 299);
     ans_status := res_statusCode resp;
     ans_statusText := statusText;
     ans_json :=
       match res_body resp with
       | Some v => inr v
       | None => inl (Error_ "Unexpected end of JSON input")
       end |}.

(** Samples of the UI's built-ins.  The sample [trim] strips the spaces at
    the front. *)
Fixpoint sample_trim (s : string) : string :=
  match s with
  | String a rest =>
      if Ascii.eqb a (Ascii.ascii_of_nat 32) then sample_trim rest else s
  | EmptyString => EmptyString
  end.

(** [String(v)], right on the values the samples use. *)
Definition sample_String (v : value) : string :=
  match v with
  | JUndefined => "undefined"
  | JNull => "null"
  | JBool b => if b then "true" else "false"
  | JNum x => if PrimFloat.eqb x 3000 then "3000" else "0"
  | JStr s => s
  | JArr _ => ""
  | JObj _ => "[object Object]"
  end.

Definition sample_null_read (k : string) : string :=
  "Cannot read properties of null (reading '" +:+ k +:+ "')".

Definition sample_state : UiState :=
  {| ui_messages := []; ui_input := " hi"; ui_loading := false;
     ui_error := JNull; ui_model := "mistral" |}.

(** Unfold the monad and the log sink, leaving the handlers' data alone. *)
Ltac run :=
  cbv [try_catch mbind M_bind mret M_ret logInfo logWarn logError writeLog
       emit lift chat list_ trace result fst snd].

(** ** Sanity checks on concrete requests *)

Example chat_simple :
  @chat_handler healthy (post_chat {[ "message" := JStr "hi" ]}) fresh_response
  = ([ EvLog {| log_level_of := INFO; log_message := "Calling Ollama API";
                log_endpoint := None; log_method := None; log_statusCode := None |};
       EvChat {| call_model := JStr "llama3.1";
                 call_messages := [JObj {[ "role" := JStr "user"; "content" := JStr "hi" ]}];
                 call_stream := false |};
       EvLog {| log_level_of := INFO; log_message := "Ollama API call successful";
                log_endpoint := None; log_method := None; log_statusCode := None |} ],
     Returned (json (JObj {[
         "success" := JBool true;
         "model" := JStr "llama3.1";
         "response" := JStr "Hello!";
         "done" := JBool true;
         "created_at" := JUndefined;
         "total_duration" := JUndefined;
         "load_duration" := JUndefined;
         "prompt_eval_count" := JUndefined;
         "prompt_eval_duration" := JUndefined;
         "eval_count" := JNum 25%float;
         "eval_duration" := JUndefined ]}) fresh_response)).
Proof. vm_compute. reflexivity. Qed.

Example chat_empty_body :
  @chat_handler healthy (post_chat ∅) fresh_response
  = ([ EvLog {| log_level_of := WARN;
                log_message := "Validation error: Missing message or messages field";
                log_endpoint := None; log_method := None; log_statusCode := None |} ],
     Returned (json missing_field_body (status 400 fresh_response))).
Proof. vm_compute. reflexivity. Qed.

Example chat_unreachable :
  res_statusCode <$>
    (match result (@chat_handler (failing "connect ECONNREFUSED 127.0.0.1:11434")
                     (post_chat {[ "message" := JStr "hi" ]}) fresh_response) with
     | Returned r => Some r | Thrown _ => None end)
  = Some 503.
Proof. vm_compute. reflexivity. Qed.

Example preflight :
  @app healthy {| in_method := "OPTIONS"; in_path := "/api/chat"; in_json := Returned ∅ |}
  = ([], Returned (end_ (status 200 (cors_headers fresh_response)))).
Proof. reflexivity. Qed.

Example models_listed :
  res_body <$>
    (match result (@models_handler healthy
                     {| req_method := "GET"; req_path := "/api/models"; req_body := ∅ |}
                     fresh_response) with
     | Returned r => Some r | Thrown _ => None end)
  = Some (Some (JObj {[
      "success" := JBool true;
      "models" := JArr [
        JObj {[ "name" := JStr "llama3.1";
                "modified_at" := JStr "2024-01-01T00:00:00.000Z";
                "size" := JNum 4661224676%float;
                "digest" := JStr "sha256:46e0c10c039e" ]};
        JObj {[ "name" := JStr "mistral";
                "modified_at" := JUndefined;
                "size" := JNum 4109865159%float;
                "digest" := JStr "sha256:61e88e884507" ]} ] ]})).
Proof. vm_compute. reflexivity. Qed.
Example app_empty_chat_body :
  @app healthy {| in_method := "POST"; in_path := "/api/chat"; in_json := Returned ∅ |}
  = ([ EvLog {| log_level_of := INFO; log_message := "Request: POST /api/chat";
                log_endpoint := None; log_method := None; log_statusCode := None |};
       EvLog {| log_level_of := WARN;
                log_message := "Validation error: Missing message or messages field";
                log_endpoint := None; log_method := None; log_statusCode := None |};
       EvLog {| log_level_of := ERROR; log_message := "Response: POST /api/chat";
                log_endpoint := Some "/api/chat"; log_method := Some "POST";
                log_statusCode := Some 400 |} ],
     Returned (json missing_field_body (status 400 (cors_headers fresh_response)))).
Proof. vm_compute. reflexivity. Qed.

Example app_stray_get :
  trace (@app healthy stray_get)
  = [ EvLog {| log_level_of := INFO; log_message := "Request: GET /nope";
               log_endpoint := None; log_method := None; log_statusCode := None |};
      EvLog {| log_level_of := WARN; log_message := "Route not found";
               log_endpoint := None; log_method := None; log_statusCode := None |};
      EvLog {| log_level_of := ERROR; log_message := "Response: GET /nope";
               log_endpoint := Some "/nope"; log_method := Some "GET";
               log_statusCode := Some 404 |} ].
Proof. vm_compute. reflexivity. Qed.

Example app_malformed_post :
  trace (@app healthy malformed_post)
  = [ EvLog {| log_level_of := ERROR;
               log_message := "Unhandled error in Express middleware";
               log_endpoint := Some "/nope"; log_method := Some "POST";
               log_statusCode := Some 500 |} ].
Proof. vm_compute. reflexivity. Qed.

Example includes_examples :
  includes "connect ECONNREFUSED 127.0.0.1:11434" "ECONNREFUSED" = true ∧
  includes "TypeError: fetch failed" "fetch failed" = true ∧
  includes "model 'llama9' not found" "connect" = false ∧
  includes "" "model" = false ∧
  includes "anything" "" = true.
Proof. by repeat split. Qed.

(** ** Substring search *)

Lemma append_cons (a : Ascii.ascii) (s t : string) :
  String a s +:+ t = String a (s +:+ t).
Proof. reflexivity. Qed.

Lemma prefix_iff (s1 s2 : string) :
  String.prefix s1 s2 = true ↔ ∃ post, s2 = s1 +:+ post.
Proof.
  revert s2. induction s1 as [|a s1 IH]; intros s2.
  - destruct s2; split; eauto.
  - destruct s2 as [|b s2]; simpl.
    + split; [discriminate | intros [post Hp]; discriminate].
    + destruct (Ascii.ascii_dec a b) as [->|Hne].
      * rewrite IH. split; intros [post Hp]; exists post;
          rewrite append_cons in *; congruence.
      * split; [discriminate |].
        intros [post Hp]. rewrite append_cons in Hp. congruence.
Qed.

Lemma includes_iff (s sub : string) :
  includes s sub = true ↔ contains s sub.
Proof.
  unfold contains. induction s as [|a s IH].
  - change (includes "" sub) with (String.prefix sub "" || false).
    rewrite orb_false_r, prefix_iff. split.
    + intros [post Hp]. by exists "", post.
    + intros ([|b pre] & post & Hp); [eauto | discriminate].
  - change (includes (String a s) sub)
      with (String.prefix sub (String a s) || includes s sub).
    rewrite orb_true_iff, prefix_iff, IH. split.
    + intros [[post Hp] | (pre & post & Hp)].
      * by exists "", post.
      * exists (String a pre), post. by rewrite append_cons, Hp.
    + intros ([|b pre] & post & Hp).
      * left. eauto.
      * right. exists pre, post. rewrite append_cons in Hp. congruence.
Qed.

Lemma includes_false (s sub : string) :
  includes s sub = false ↔ ¬ contains s sub.
Proof. rewrite <- includes_iff. destruct (includes s sub); split; congruence. Qed.

(** ** The handler monad *)

Section MonadFacts.
Context {A B : Type}.

Lemma trace_bind (m : M A) (k : A → M B) :
  trace (m ≫= k) =
  trace m ++ match result m with Returned a => trace (k a) | Thrown _ => [] end.
Proof.
  destruct m as [t [a|e]]; cbv [mbind M_bind trace result fst snd].
  - by destruct (k a).
  - by rewrite app_nil_r.
Qed.

Lemma result_bind (m : M A) (k : A → M B) :
  result (m ≫= k) =
  match result m with Returned a => result (k a) | Thrown e => Thrown e end.
Proof.
  destruct m as [t [a|e]]; cbv [mbind M_bind trace result fst snd]; [|done].
  by destruct (k a).
Qed.

Lemma trace_try_catch (m : M A) (h : thrown → M A) :
  trace (try_catch m h) =
  trace m ++ match result m with Returned _ => [] | Thrown e => trace (h e) end.
Proof.
  destruct m as [t [a|e]]; cbv [try_catch trace result fst snd].
  - by rewrite app_nil_r.
  - by destruct (h e).
Qed.

Lemma result_try_catch (m : M A) (h : thrown → M A) :
  result (try_catch m h) =
  match result m with Returned a => Returned a | Thrown e => result (h e) end.
Proof.
  destruct m as [t [a|e]]; cbv [try_catch trace result fst snd]; [done|].
  by destruct (h e).
Qed.

End MonadFacts.

Lemma chat_calls_app (t1 t2 : list event) :
  chat_calls (t1 ++ t2) = chat_calls t1 ++ chat_calls t2.
Proof. apply omap_app. Qed.

Lemma chat_calls_log (entry : LogEntry) (t : list event) :
  chat_calls (EvLog entry :: t) = chat_calls t.
Proof. reflexivity. Qed.

Lemma chat_calls_chat (c : ChatCall) (t : list event) :
  chat_calls (EvChat c :: t) = c :: chat_calls t.
Proof. reflexivity. Qed.

(** ** The chat handler, case by case *)

Section ChatFacts.
Context `{Runtime}.

Lemma iso_or_undefined_silent (v : value) : trace (iso_or_undefined v) = [].
Proof.
  unfold iso_or_undefined. destruct (truthy v); [|done].
  rewrite trace_bind. unfold lift at 1 2. cbn [trace result fst snd].
  by destruct (date_toISOString v).
Qed.

Lemma chat_catch_silent (req : Request) (res : Response) (e : thrown) :
  chat_calls (trace (chat_catch req res e)) = [].
Proof.
  unfold chat_catch.
  destruct (_ || _ || _); [done|]. by destruct (includes _ "model").
Qed.

Lemma chat_catch_responds (req : Request) (res : Response) (e : thrown) :
  ∃ resp, result (chat_catch req res e) = Returned resp ∧
          res_statusCode resp ∈ [503; 404; 500].
Proof.
  unfold chat_catch.
  destruct (_ || _ || _); [|destruct (includes _ "model")];
    eexists; (split; [reflexivity|]); cbn [json status res_statusCode];
    repeat constructor.
Qed.

(** A body that fails the validation is answered at once. *)
Lemma chat_handler_rejected (req : Request) (res : Response) :
  accepted (req_body req) = false →
  chat_handler req res =
  ([EvLog {| log_level_of := WARN;
             log_message := "Validation error: Missing message or messages field";
             log_endpoint := None; log_method := None; log_statusCode := None |}],
   Returned (json missing_field_body (status 400 res))).
Proof.
  unfold accepted, chat_handler. intros Hv%negb_false_iff. by rewrite Hv.
Qed.

(** What the [try] block does once the body is through the validation. *)
Lemma chat_handler_accepted (req : Request) (res : Response) :
  accepted (req_body req) = true →
  chat_handler req res =
  try_catch
    (logInfo "Calling Ollama API";;
     response ← chat (call_of (req_body req));
     logInfo "Ollama API call successful";;
     created_at ← iso_or_undefined (prop response "created_at");
     mret (json (JObj {[
       "success" := JBool true;
       "model" := model_of (req_body req);
       "response" := js_or (opt_prop (prop response "message") "content")
                           (opt_toString (prop response "message"));
       "done" := prop response "done";
       "created_at" := created_at;
       "total_duration" := prop response "total_duration";
       "load_duration" := prop response "load_duration";
       "prompt_eval_count" := prop response "prompt_eval_count";
       "prompt_eval_duration" := prop response "prompt_eval_duration";
       "eval_count" := prop response "eval_count";
       "eval_duration" := prop response "eval_duration" ]})
       res))
    (chat_catch req res).
Proof.
  unfold accepted, chat_handler. intros Hv%negb_true_iff. by rewrite Hv.
Qed.

(** The adapter is called at most once, and exactly when the body is
    through the validation. *)
Lemma chat_calls_of_handler (req : Request) (res : Response) :
  chat_calls (trace (chat_handler req res)) =
  if accepted (req_body req) then [call_of (req_body req)] else [].
Proof.
  destruct (accepted (req_body req)) eqn:Hv;
    [rewrite chat_handler_accepted by done | by rewrite chat_handler_rejected].
  assert (Hc : ∀ e t r, chat_catch req res e = (t, r) → chat_calls t = []).
  { intros e t r Hc. by rewrite <- (chat_catch_silent req res e), Hc. }
  run. destruct (ollama_chat _) as [response|e].
  - pose proof (iso_or_undefined_silent (prop response "created_at")) as Hs.
    destruct (iso_or_undefined _) as [t [c|e]]; cbn in Hs; subst t; [done|].
    destruct (chat_catch req res e) as [t r] eqn:Ec.
    by rewrite chat_calls_app, (Hc e t r).
  - destruct (chat_catch req res e) as [t r] eqn:Ec.
    by rewrite chat_calls_app, (Hc e t r).
Qed.

(** When the adapter rejects, the [catch] block writes the answer. *)
Lemma chat_handler_failed (req : Request) (res : Response) (e : thrown) :
  accepted (req_body req) = true →
  ollama_chat (call_of (req_body req)) = Thrown e →
  result (chat_handler req res) = result (chat_catch req res e).
Proof.
  intros Hv He. rewrite chat_handler_accepted by done.
  run. rewrite He. by destruct (chat_catch req res e).
Qed.

(** The handler always answers, and never with 400 once the body is through
    the validation. *)
Lemma chat_handler_responds (req : Request) (res : Response) :
  accepted (req_body req) = true →
  ∃ resp, result (chat_handler req res) = Returned resp ∧
          res_statusCode resp ∈ [res_statusCode res; 503; 404; 500].
Proof.
  intros Hv. rewrite chat_handler_accepted by done.
  assert (Hc : ∀ e t r, chat_catch req res e = (t, r) →
      ∃ resp, r = Returned resp ∧
              res_statusCode resp ∈ [res_statusCode res; 503; 404; 500]).
  { intros e t r Hc. destruct (chat_catch_responds req res e) as (resp & Hr & Hs).
    rewrite Hc in Hr. exists resp. split; [done|].
    by apply list_elem_of_further. }
  run. destruct (ollama_chat _) as [response|e].
  - destruct (iso_or_undefined _) as [t [c|e]].
    + eexists. split; [reflexivity|]. cbn [json res_statusCode]. constructor.
    + destruct (chat_catch req res e) as [t' r] eqn:Ec. eauto.
  - destruct (chat_catch req res e) as [t' r] eqn:Ec. eauto.
Qed.

End ChatFacts.

(** ** The chat endpoint: validation and forwarding *)

Section ChatClaims.
Context `{Runtime}.

Lemma prop_lookup_Some (body : gmap string value) (k : string) (v : value) :
  body !! k = Some v → prop body k = v.
Proof. unfold prop. by intros ->. Qed.

Lemma prop_lookup_None (body : gmap string value) (k : string) :
  body !! k = None → prop body k = JUndefined.
Proof. unfold prop. by intros ->. Qed.

Lemma prop_agree (b1 b2 : gmap string value) (k : string) :
  b1 !! k = b2 !! k → prop b1 k = prop b2 k.
Proof. unfold prop. by intros ->. Qed.

(** The handler reads three fields of the body and nothing else. *)
Lemma call_of_agree (b1 b2 : gmap string value) :
  b1 !! "message" = b2 !! "message" →
  b1 !! "messages" = b2 !! "messages" →
  b1 !! "model" = b2 !! "model" →
  call_of b1 = call_of b2 ∧ accepted b1 = accepted b2.
Proof.
  intros Hm Hms Hmo. unfold call_of, accepted, model_of.
  by rewrite (prop_agree _ _ _ Hm), (prop_agree _ _ _ Hms), (prop_agree _ _ _ Hmo).
Qed.

Lemma chat_calls_agree (req1 req2 : Request) (res : Response) :
  req_body req1 !! "message" = req_body req2 !! "message" →
  req_body req1 !! "messages" = req_body req2 !! "messages" →
  req_body req1 !! "model" = req_body req2 !! "model" →
  chat_calls (trace (chat_handler req1 res)) =
  chat_calls (trace (chat_handler req2 res)).
Proof.
  intros Hm Hms Hmo. rewrite !chat_calls_of_handler.
  by destruct (call_of_agree _ _ Hm Hms Hmo) as [-> ->].
Qed.

Lemma chat_call_inv (req : Request) (res : Response) (c : ChatCall) :
  c ∈ chat_calls (trace (chat_handler req res)) →
  accepted (req_body req) = true ∧ c = call_of (req_body req).
Proof.
  rewrite chat_calls_of_handler. destruct (accepted _).
  - by intros ->%list_elem_of_singleton.
  - by intros ?%elem_of_nil.
Qed.

(** C1 (amended): when [message] is absent, the empty string or any other
    falsy value, and [messages] is absent or any other falsy value (an array,
    even an empty one, is not), the handler answers 400 with the fixed
    missing-field body and [ollama.chat] is not called. *)
Theorem chat_missing_fields_rejected (req : Request) (res : Response) :
  truthy (prop (req_body req) "message") = false →
  truthy (prop (req_body req) "messages") = false →
  (∃ resp, result (chat_handler req res) = Returned resp ∧
           res_statusCode resp = 400 ∧
           res_body resp = Some missing_field_body) ∧
  chat_calls (trace (chat_handler req res)) = [].
Proof.
  intros Hm Hms.
  assert (Hv : accepted (req_body req) = false).
  { unfold accepted. by rewrite Hm, Hms. }
  rewrite chat_handler_rejected by done. split; [|done].
  by eexists.
Qed.

(** C2: a non-empty [messages] array is what [ollama.chat] receives as its
    turns, the same elements in the same order, in the one call made. *)
Theorem chat_forwards_messages (req : Request) (res : Response) (l : list value) :
  req_body req !! "messages" = Some (JArr l) →
  l ≠ [] →
  chat_calls (trace (chat_handler req res)) =
  [ {| call_model := model_of (req_body req);
       call_messages := l;
       call_stream := false |} ].
Proof.
  intros Hms _. rewrite chat_calls_of_handler.
  unfold accepted, call_of. rewrite (prop_lookup_Some _ _ _ Hms).
  by rewrite andb_false_r.
Qed.

(** C3: with a non-empty [message] string and no [messages] field,
    [ollama.chat] receives exactly one turn, of role "user" and with the
    message as its content. *)
Theorem chat_wraps_single_message (req : Request) (res : Response) (m : string) :
  req_body req !! "message" = Some (JStr m) →
  m ≠ "" →
  req_body req !! "messages" = None →
  chat_calls (trace (chat_handler req res)) =
  [ {| call_model := model_of (req_body req);
       call_messages := [JObj {[ "role" := JStr "user"; "content" := JStr m ]}];
       call_stream := false |} ].
Proof.
  intros Hm Hne Hms. rewrite chat_calls_of_handler.
  unfold accepted, call_of, chatMessages_of.
  rewrite (prop_lookup_Some _ _ _ Hm), (prop_lookup_None _ _ Hms).
  assert (Ht : truthy (JStr m) = true).
  { cbn [truthy]. apply negb_true_iff, String.eqb_neq, Hne. }
  by rewrite Ht.
Qed.

(** C4: every call of [ollama.chat] has [stream: false], and two bodies that
    differ only in their [stream] field lead to the same calls. *)
Theorem chat_stream_forced_off (req1 req2 : Request) (res : Response) :
  differ_only_in "stream" (req_body req1) (req_body req2) →
  Forall (λ c, call_stream c = false) (chat_calls (trace (chat_handler req1 res))) ∧
  chat_calls (trace (chat_handler req1 res)) =
  chat_calls (trace (chat_handler req2 res)).
Proof.
  intros Hd. split.
  - rewrite chat_calls_of_handler. destruct (accepted _); repeat constructor.
  - apply chat_calls_agree; by apply Hd.
Qed.

(** C7: the [system] field never reaches the adapter: two bodies that differ
    only in it lead to the same [ollama.chat] calls (model, turns and stream
    flag). *)
Theorem chat_system_ignored (req1 req2 : Request) (res : Response) :
  differ_only_in "system" (req_body req1) (req_body req2) →
  chat_calls (trace (chat_handler req1 res)) =
  chat_calls (trace (chat_handler req2 res)).
Proof. intros Hd. apply chat_calls_agree; by apply Hd. Qed.

(** C9: a body without [message] and with [messages: []] is through the
    validation: [ollama.chat] is called once, with no turns, and the answer is
    not a 400. *)
Theorem chat_empty_messages_accepted (req : Request) (res : Response) :
  req_body req !! "message" = None →
  req_body req !! "messages" = Some (JArr []) →
  res_statusCode res ≠ 400 →
  chat_calls (trace (chat_handler req res)) =
    [ {| call_model := model_of (req_body req);
         call_messages := [];
         call_stream := false |} ] ∧
  ∃ resp, result (chat_handler req res) = Returned resp ∧
          res_statusCode resp ≠ 400.
Proof.
  intros Hm Hms Hres.
  assert (Hv : accepted (req_body req) = true).
  { unfold accepted. by rewrite (prop_lookup_Some _ _ _ Hms), andb_false_r. }
  split.
  - rewrite chat_calls_of_handler, Hv. unfold call_of.
    by rewrite (prop_lookup_Some _ _ _ Hms).
  - destruct (chat_handler_responds req res Hv) as (resp & Hr & Hs).
    exists resp. split; [done|].
    rewrite !elem_of_cons in Hs.
    destruct Hs as [->|[->|[->|[->|Hs]]]]; try done.
    by apply elem_of_nil in Hs.
Qed.


(** ** The chat endpoint: classifying adapter failures *)

Lemma chat_catch_unavailable (req : Request) (res : Response) (e : thrown)
    (keyword : string) :
  keyword ∈ ["connect"; "ECONNREFUSED"; "fetch failed"] →
  contains (error_text e) keyword →
  result (chat_catch req res e) =
  Returned (json (JObj {[
      "success" := JBool false;
      "error" := JStr "Ollama service unavailable";
      "message" := JStr "Could not connect to Ollama. Make sure Ollama is running and accessible." ]})
    (status 503 res)).
Proof.
  intros Hk Hc%includes_iff. unfold chat_catch.
  assert (Hany : includes (error_text e) "connect"
                 || includes (error_text e) "ECONNREFUSED"
                 || includes (error_text e) "fetch failed" = true).
  { rewrite !elem_of_cons in Hk.
    destruct Hk as [->|[->|[->|Hk]]]; [..|by apply elem_of_nil in Hk];
      rewrite Hc; by rewrite ?orb_true_r. }
  by rewrite Hany.
Qed.

Lemma chat_catch_model (req : Request) (res : Response) (e : thrown) :
  ¬ contains (error_text e) "connect" →
  ¬ contains (error_text e) "ECONNREFUSED" →
  ¬ contains (error_text e) "fetch failed" →
  contains (error_text e) "model" →
  result (chat_catch req res e) =
  Returned (json (JObj {[
      "success" := JBool false;
      "error" := JStr "Model not found";
      "message" := JStr (error_text e) ]})
    (status 404 res)).
Proof.
  intros H1%includes_false H2%includes_false H3%includes_false Hm%includes_iff.
  unfold chat_catch. by rewrite H1, H2, H3, Hm.
Qed.

(** C5: when the adapter call fails with a message containing "connect",
    "ECONNREFUSED" or "fetch failed", the answer is 503 with [success: false]
    and [error: "Ollama service unavailable"]. *)
Theorem chat_connection_failure_503 (req : Request) (res : Response)
    (c : ChatCall) (e : thrown) (keyword : string) :
  c ∈ chat_calls (trace (chat_handler req res)) →
  ollama_chat c = Thrown e →
  keyword ∈ ["connect"; "ECONNREFUSED"; "fetch failed"] →
  contains (error_text e) keyword →
  ∃ resp o, result (chat_handler req res) = Returned resp ∧
            res_statusCode resp = 503 ∧
            res_body resp = Some (JObj o) ∧
            o !! "success" = Some (JBool false) ∧
            o !! "error" = Some (JStr "Ollama service unavailable").
Proof.
  intros [Hv ->]%chat_call_inv He Hk Hc.
  rewrite (chat_handler_failed req res e Hv He).
  rewrite (chat_catch_unavailable req res e keyword Hk Hc).
  eexists _, _. by repeat split.
Qed.

(** C6: when the adapter call fails with a message containing "model" and
    none of the connection keywords, the answer is 404 with
    [error: "Model not found"] and the adapter's message as [message]; when a
    connection keyword is there as well, the answer is the 503 one. *)
Theorem chat_model_failure_404 (req : Request) (res : Response)
    (c : ChatCall) (e : thrown) :
  c ∈ chat_calls (trace (chat_handler req res)) →
  ollama_chat c = Thrown e →
  contains (error_text e) "model" →
  (¬ contains (error_text e) "connect" →
   ¬ contains (error_text e) "ECONNREFUSED" →
   ¬ contains (error_text e) "fetch failed" →
   ∃ resp o, result (chat_handler req res) = Returned resp ∧
             res_statusCode resp = 404 ∧
             res_body resp = Some (JObj o) ∧
             o !! "success" = Some (JBool false) ∧
             o !! "error" = Some (JStr "Model not found") ∧
             o !! "message" = Some (JStr (error_text e))) ∧
  (∀ keyword,
     keyword ∈ ["connect"; "ECONNREFUSED"; "fetch failed"] →
     contains (error_text e) keyword →
     ∃ resp, result (chat_handler req res) = Returned resp ∧
             res_statusCode resp = 503).
Proof.
  intros [Hv ->]%chat_call_inv He Hm.
  rewrite (chat_handler_failed req res e Hv He). split.
  - intros H1 H2 H3. rewrite (chat_catch_model req res e H1 H2 H3 Hm).
    eexists _, _. by repeat split.
  - intros keyword Hk Hc.
    rewrite (chat_catch_unavailable req res e keyword Hk Hc). by eexists.
Qed.

End ChatClaims.

(** ** The models endpoint *)

Section ModelsClaims.
Context `{Runtime}.

Lemma iso_or_undefined_result (v : value) (out : value) :
  result (iso_or_undefined v) = Returned out →
  if truthy v
  then ∃ s, date_toISOString v = Returned s ∧ out = JStr s
  else out = JUndefined.
Proof.
  unfold iso_or_undefined. destruct (truthy v).
  - run. destruct (date_toISOString v) as [s|e]; [|done].
    intros [= <-]. by exists s.
  - by intros [= <-].
Qed.

Lemma reshape_model_silent (model : gmap string value) :
  trace (reshape_model model) = [].
Proof.
  unfold reshape_model. rewrite trace_bind, iso_or_undefined_silent.
  by destruct (result (iso_or_undefined _)).
Qed.

Lemma reshape_model_result (model : gmap string value) (out : value) :
  result (reshape_model model) = Returned out → reshaped model out.
Proof.
  unfold reshape_model. rewrite result_bind.
  destruct (result (iso_or_undefined _)) as [modified_at|e] eqn:Hiso; [|done].
  intros [= <-]. exists modified_at. split; [done|].
  by apply iso_or_undefined_result.
Qed.

(** Descriptor by descriptor, in order. *)
Lemma mapM_reshape_result (models : list (gmap string value)) (outs : list value) :
  result (mapM reshape_model models) = Returned outs →
  Forall2 reshaped models outs.
Proof.
  revert outs. induction models as [|model models IH]; intros outs.
  - intros [= <-]. constructor.
  - cbn [mapM]. rewrite result_bind.
    destruct (result (reshape_model model)) as [out|e] eqn:Hout; [|done].
    rewrite result_bind.
    destruct (result (mapM reshape_model models)) as [outs'|e] eqn:Houts; [|done].
    intros [= <-]. constructor; [by apply reshape_model_result | by apply IH].
Qed.

(** The fields of a reshaped descriptor. *)
Lemma reshaped_fields (model : gmap string value) (out : value) :
  reshaped model out →
  opt_prop out "name" = prop model "name" ∧
  opt_prop out "size" = prop model "size" ∧
  opt_prop out "digest" = prop model "digest".
Proof. intros (modified_at & -> & _). by repeat split. Qed.

(** C8: in a successful answer of [GET /api/models] the descriptors are those
    of [ollama.list()], one for one and in the same order, each with its
    [name], [size] and [digest] unchanged and its [modified_at] in ISO
    form. *)
Theorem models_reshaped (req : Request) (res : Response) (resp : Response) :
  result (models_handler req res) = Returned resp →
  succeeded resp →
  ∃ listed outs,
    ollama_list = Returned listed ∧
    res_body resp = Some (JObj {[ "success" := JBool true;
                                  "models" := JArr outs ]}) ∧
    Forall2 reshaped (default [] listed) outs ∧
    Forall2 (λ model out,
               opt_prop out "name" = prop model "name" ∧
               opt_prop out "size" = prop model "size" ∧
               opt_prop out "digest" = prop model "digest")
            (default [] listed) outs.
Proof.
  unfold models_handler. rewrite result_try_catch, !result_bind.
  unfold logInfo at 1, writeLog at 1, emit at 1. cbn [result snd].
  unfold list_. rewrite !result_bind.
  unfold emit at 1, lift at 1. cbn [result snd].
  assert (Hfail : ∀ e o,
    ({[ "success" := JBool false; "error" := JStr "Error fetching models";
        "message" := JStr (error_text e) ]} : gmap string value) = o →
    o !! "success" = Some (JBool true) → False).
  { by intros e o <-. }
  destruct ollama_list as [listed|e].
  - rewrite !result_bind.
    unfold logInfo at 1, writeLog at 1, emit at 1. cbn [result snd].
    destruct (result (mapM reshape_model (default [] listed))) as [outs|e] eqn:Hm.
    + intros [= <-] _. exists listed, outs.
      pose proof (mapM_reshape_result _ _ Hm) as Hall.
      repeat split; [done|].
      eapply Forall2_impl; [exact Hall|]. apply reshaped_fields.
    + run. intros [= <-] (o & [= Ho] & Hs). exfalso. by eapply Hfail.
  - run. intros [= <-] (o & [= Ho] & Hs). exfalso. by eapply Hfail.
Qed.

End ModelsClaims.

(** ** Routing *)

Section RoutingClaims.
Context `{Runtime}.

Lemma router_unmatched (req : Request) (res : Response) :
  Forall (λ r, route_takes req r = false) routes →
  router req res = not_found_handler req res.
Proof.
  intros Hno. unfold router.
  destruct (find (route_takes req) routes) as [r|] eqn:Hf; [|done].
  apply find_some in Hf as [Hin Ht].
  rewrite Forall_forall in Hno. by rewrite (Hno r) in Ht by by apply list_elem_of_In.
Qed.

(** The request logger leaves the response and the adapter calls alone. *)
Lemma logged_result (req : Request) (next : M Response) :
  result (logged req next) = result next.
Proof. unfold logged. run. by destruct next as [t [resp|e]]. Qed.

Lemma logged_chat_calls (req : Request) (next : M Response) :
  chat_calls (trace (logged req next)) = chat_calls (trace next).
Proof.
  unfold logged. run. destruct next as [t [resp|e]]; rewrite !chat_calls_app.
  - change (chat_calls [EvLog ?e]) with (@nil ChatCall).
    change (chat_calls []) with (@nil ChatCall).
    by rewrite !app_nil_r.
  - done.
Qed.

(** A request for which [POST /api/chat] is the first route that takes it
    goes, past the CORS middleware and the logger, to the chat handler. *)
Lemma app_post_chat (i : Incoming) (body : gmap string value) :
  in_method i ≠ "OPTIONS" →
  in_json i = Returned body →
  route_matches "GET" "/health" (in_method i) (in_path i) = false →
  route_matches "OPTIONS" "/api/chat" (in_method i) (in_path i) = false →
  route_matches "OPTIONS" "/api/models" (in_method i) (in_path i) = false →
  route_matches "POST" "/api/chat" (in_method i) (in_path i) = true →
  let req := {| req_method := in_method i; req_path := in_path i;
                req_body := body |} in
  result (app i) = result (chat_handler req (cors_headers fresh_response)) ∧
  chat_calls (trace (app i)) =
  chat_calls (trace (chat_handler req (cors_headers fresh_response))).
Proof.
  intros Hm%String.eqb_neq Hb H1 H2 H3 H4 req. unfold app. rewrite Hm, Hb.
  fold req. rewrite logged_result, logged_chat_calls.
  assert (Hr : router req (cors_headers fresh_response)
               = chat_handler req (cors_headers fresh_response)).
  { unfold router, routes, route_takes, req.
    cbn [find fst snd req_method req_path].
    by rewrite H1, H2, H3, H4. }
  by rewrite Hr.
Qed.

(** C10 (amended): a request that is not OPTIONS, whose body
    [express.json()] accepts, and that no registered route takes, is answered
    404 with the "Not found" body naming its method and path. *)
Theorem unmatched_route_404 (i : Incoming) (body : gmap string value) :
  in_method i ≠ "OPTIONS" →
  in_json i = Returned body →
  Forall (λ r, route_matches r.1.1 r.1.2 (in_method i) (in_path i) = false)
         routes →
  ∃ resp, result (app i) = Returned resp ∧
          res_statusCode resp = 404 ∧
          res_body resp = Some (JObj {[
            "success" := JBool false;
            "error" := JStr "Not found";
            "message" := JStr ("Route " +:+ in_method i +:+ " " +:+ in_path i
                               +:+ " not found") ]}).
Proof.
  intros Hm%String.eqb_neq Hb Hno. unfold app. rewrite Hm, Hb.
  unfold logged. rewrite router_unmatched by exact Hno.
  by eexists.
Qed.

End RoutingClaims.

(** ** The claims on concrete requests *)

Lemma differ_only_in_insert (field : string) (v : value) (b : gmap string value) :
  differ_only_in field (<[field := v]> b) b.
Proof. intros k Hk. by apply lookup_insert_ne. Qed.

Lemma chat_missing_fields_rejected_witness :
  let req := post_chat {[ "message" := JStr ""; "model" := JStr "llama3.1" ]} in
  (∃ resp, result (@chat_handler healthy req fresh_response) = Returned resp ∧
           res_statusCode resp = 400 ∧
           res_body resp = Some missing_field_body) ∧
  chat_calls (trace (@chat_handler healthy req fresh_response)) = [].
Proof.
  intros req.
  apply (@chat_missing_fields_rejected healthy req fresh_response); reflexivity.
Defined.

(** C1 as stated fails: with [message] absent and [messages] the empty
    array, both "absent or empty", the answer is not the 400 one and
    [ollama.chat] is called. *)
Lemma chat_empty_messages_not_rejected :
  let req := post_chat {[ "messages" := JArr [] ]} in
  absent_or_empty (prop (req_body req) "message") ∧
  absent_or_empty (prop (req_body req) "messages") ∧
  (∃ resp, result (@chat_handler healthy req fresh_response) = Returned resp ∧
           res_statusCode resp = 200) ∧
  chat_calls (trace (@chat_handler healthy req fresh_response)) ≠ [].
Proof.
  intros req. split; [by left|]. split; [by right; right|]. split.
  - eexists. split; [vm_compute; reflexivity | reflexivity].
  - vm_compute. discriminate.
Qed.

Lemma chat_forwards_messages_witness :
  let turns := [ JObj {[ "role" := JStr "user"; "content" := JStr "Hello!" ]};
                 JObj {[ "role" := JStr "assistant"; "content" := JStr "Hi there!" ]};
                 JObj {[ "role" := JStr "user"; "content" := JStr "Tell me a joke" ]} ] in
  let req := post_chat {[ "messages" := JArr turns; "model" := JStr "mistral" ]} in
  chat_calls (trace (@chat_handler healthy req fresh_response)) =
  [ {| call_model := model_of (req_body req);
       call_messages := turns;
       call_stream := false |} ].
Proof.
  intros turns req.
  apply (@chat_forwards_messages healthy req fresh_response turns);
    [reflexivity | discriminate].
Defined.

Lemma chat_wraps_single_message_witness :
  let req := post_chat {[ "message" := JStr "hi" ]} in
  chat_calls (trace (@chat_handler healthy req fresh_response)) =
  [ {| call_model := model_of (req_body req);
       call_messages := [JObj {[ "role" := JStr "user"; "content" := JStr "hi" ]}];
       call_stream := false |} ].
Proof.
  intros req.
  apply (@chat_wraps_single_message healthy req fresh_response "hi");
    [reflexivity | discriminate | reflexivity].
Defined.

Lemma chat_stream_forced_off_witness :
  let body := {[ "message" := JStr "hi" ]} in
  let req1 := post_chat (<["stream" := JBool true]> body) in
  let req2 := post_chat body in
  Forall (λ c, call_stream c = false)
         (chat_calls (trace (@chat_handler healthy req1 fresh_response))) ∧
  chat_calls (trace (@chat_handler healthy req1 fresh_response)) =
  chat_calls (trace (@chat_handler healthy req2 fresh_response)).
Proof.
  intros body req1 req2.
  apply (@chat_stream_forced_off healthy req1 req2 fresh_response).
  apply differ_only_in_insert.
Defined.

Lemma chat_system_ignored_witness :
  let body := {[ "message" := JStr "hi" ]} in
  let req1 := post_chat (<["system" := JStr "You are a helpful assistant."]> body) in
  let req2 := post_chat body in
  chat_calls (trace (@chat_handler healthy req1 fresh_response)) =
  chat_calls (trace (@chat_handler healthy req2 fresh_response)).
Proof.
  intros body req1 req2.
  apply (@chat_system_ignored healthy req1 req2 fresh_response).
  apply differ_only_in_insert.
Defined.

Lemma chat_connection_failure_503_witness :
  let R := failing "connect ECONNREFUSED 127.0.0.1:11434" in
  let req := post_chat {[ "message" := JStr "hi" ]} in
  ∃ resp o, result (@chat_handler R req fresh_response) = Returned resp ∧
            res_statusCode resp = 503 ∧
            res_body resp = Some (JObj o) ∧
            o !! "success" = Some (JBool false) ∧
            o !! "error" = Some (JStr "Ollama service unavailable").
Proof.
  intros R req.
  apply (@chat_connection_failure_503 R req fresh_response
           (call_of (req_body req))
           (ErrorObj "connect ECONNREFUSED 127.0.0.1:11434") "ECONNREFUSED").
  - vm_compute. constructor.
  - reflexivity.
  - repeat constructor.
  - by exists "connect ", " 127.0.0.1:11434".
Defined.

Lemma chat_model_failure_404_witness :
  let message := "model 'llama9' not found, try pulling it first" in
  let R := failing message in
  let req := post_chat {[ "message" := JStr "hi"; "model" := JStr "llama9" ]} in
  ∃ resp o, result (@chat_handler R req fresh_response) = Returned resp ∧
            res_statusCode resp = 404 ∧
            res_body resp = Some (JObj o) ∧
            o !! "success" = Some (JBool false) ∧
            o !! "error" = Some (JStr "Model not found") ∧
            o !! "message" = Some (JStr message).
Proof.
  intros message R req.
  refine (proj1 (@chat_model_failure_404 R req fresh_response
                   (call_of (req_body req)) (ErrorObj message) _ _ _) _ _ _).
  - vm_compute. constructor.
  - reflexivity.
  - by exists "", " 'llama9' not found, try pulling it first".
  - by apply includes_false.
  - by apply includes_false.
  - by apply includes_false.
Defined.

Lemma chat_empty_messages_accepted_witness :
  let req := post_chat {[ "messages" := JArr [] ]} in
  chat_calls (trace (@chat_handler healthy req fresh_response)) =
    [ {| call_model := model_of (req_body req);
         call_messages := [];
         call_stream := false |} ] ∧
  ∃ resp, result (@chat_handler healthy req fresh_response) = Returned resp ∧
          res_statusCode resp ≠ 400.
Proof.
  intros req.
  apply (@chat_empty_messages_accepted healthy req fresh_response);
    [reflexivity | reflexivity | discriminate].
Defined.

Lemma models_reshaped_witness :
  let req := {| req_method := "GET"; req_path := "/api/models"; req_body := ∅ |} in
  ∃ resp, result (@models_handler healthy req fresh_response) = Returned resp ∧
  ∃ listed outs,
    @ollama_list healthy = Returned listed ∧
    res_body resp = Some (JObj {[ "success" := JBool true;
                                  "models" := JArr outs ]}) ∧
    Forall2 (@reshaped healthy) (default [] listed) outs ∧
    Forall2 (λ model out,
               opt_prop out "name" = prop model "name" ∧
               opt_prop out "size" = prop model "size" ∧
               opt_prop out "digest" = prop model "digest")
            (default [] listed) outs.
Proof.
  intros req. eexists. split; [vm_compute; reflexivity|].
  apply (@models_reshaped healthy req fresh_response); [vm_compute; reflexivity|].
  eexists. split; reflexivity.
Defined.

Lemma unmatched_route_404_witness :
  ∃ resp, result (@app healthy stray_get) = Returned resp ∧
          res_statusCode resp = 404 ∧
          res_body resp = Some (JObj {[
            "success" := JBool false;
            "error" := JStr "Not found";
            "message" := JStr "Route GET /nope not found" ]}).
Proof.
  apply (@unmatched_route_404 healthy stray_get ∅);
    [discriminate | reflexivity | repeat constructor].
Defined.

(** C10 as stated fails: a POST to an unregistered path whose payload
    [express.json()] rejects skips the 404 handler and is answered 500 by the
    error handler. *)
Lemma unmatched_route_malformed_json_500 :
  in_method malformed_post ≠ "OPTIONS" ∧
  Forall (λ r, @route_matches healthy r.1.1 r.1.2
                 (in_method malformed_post) (in_path malformed_post) = false)
         (@routes healthy) ∧
  ∃ resp, result (@app healthy malformed_post) = Returned resp ∧
          res_statusCode resp = 500 ∧
          res_statusCode resp ≠ 404 ∧
          res_body resp = Some (JObj {[
            "success" := JBool false;
            "error" := JStr "Internal server error";
            "message" := JStr "Unexpected token } in JSON at position 1" ]}).
Proof.
  split; [discriminate|]. split; [repeat constructor|].
  eexists. split; [reflexivity|]. by repeat split.
Qed.

(** ** Every path through the middleware chain *)

Section ChainFacts.
Context `{Runtime}.

Lemma chat_catch_total (req : Request) (res : Response) (e : thrown) :
  ∃ resp o, result (chat_catch req res e) = Returned resp ∧
            res_statusCode resp ∈ [503; 404; 500] ∧
            res_headers resp = res_headers res ∧
            res_body resp = Some (JObj o) ∧
            o !! "success" = Some (JBool false).
Proof.
  unfold chat_catch.
  destruct (_ || _ || _); [|destruct (includes _ "model")];
    eexists _, _; (split; [reflexivity|]); cbn [json status res_statusCode];
    (split; [repeat constructor | done]).
Qed.

Lemma chat_handler_total (req : Request) (res : Response) :
  ∃ resp, result (chat_handler req res) = Returned resp ∧
          res_statusCode resp ∈ [res_statusCode res; 400; 503; 404; 500] ∧
          res_headers resp = res_headers res.
Proof.
  destruct (accepted (req_body req)) eqn:Hv.
  - rewrite chat_handler_accepted by done.
    assert (Hc : ∀ e t r, chat_catch req res e = (t, r) →
      ∃ resp, r = Returned resp ∧
              res_statusCode resp ∈ [res_statusCode res; 400; 503; 404; 500] ∧
              res_headers resp = res_headers res).
    { intros e t r Hc.
      destruct (chat_catch_total req res e) as (resp & o & Hr & Hs & Hh & _).
      rewrite Hc in Hr. exists resp. split; [done|]. split; [|done].
      by do 2 apply list_elem_of_further. }
    run. destruct (ollama_chat _) as [response|e].
    + destruct (iso_or_undefined _) as [t [c|e]].
      * eexists. split; [reflexivity|]. split; [constructor | done].
      * destruct (chat_catch req res e) as [t' r] eqn:Ec. eauto.
    + destruct (chat_catch req res e) as [t' r] eqn:Ec. eauto.
  - rewrite chat_handler_rejected by done. eexists. split; [reflexivity|].
    split; [repeat constructor | done].
Qed.

Lemma models_handler_total (req : Request) (res : Response) :
  ∃ resp, result (models_handler req res) = Returned resp ∧
          res_statusCode resp ∈ [res_statusCode res; 500] ∧
          res_headers resp = res_headers res.
Proof.
  unfold models_handler. run. destruct ollama_list as [listed|e].
  - destruct (mapM reshape_model (default [] listed)) as [t [outs|e]];
      eexists; (split; [reflexivity|]); (split; [repeat constructor | done]).
  - eexists. split; [reflexivity|]. split; [repeat constructor | done].
Qed.

(** Whichever handler the router picks, it answers. *)
Lemma router_total (req : Request) (res : Response) :
  ∃ resp, result (router req res) = Returned resp ∧
          res_statusCode resp ∈ [res_statusCode res; 200; 400; 404; 500; 503] ∧
          res_headers resp = res_headers res.
Proof.
  unfold router.
  destruct (find (route_takes req) routes) as [r|] eqn:Hf.
  - apply find_some in Hf as [Hin _].
    unfold routes in Hin. cbn [In] in Hin.
    destruct Hin as [<-|[<-|[<-|[<-|[<-|[]]]]]]; cbn [snd].
    + eexists. split; [reflexivity|]. split; [constructor | done].
    + eexists. split; [reflexivity|]. split; [repeat constructor | done].
    + eexists. split; [reflexivity|]. split; [repeat constructor | done].
    + destruct (chat_handler_total req res) as (resp & Hr & Hs & Hh).
      exists resp. split; [done|]. split; [|done].
      rewrite !elem_of_cons in Hs. rewrite !elem_of_cons. tauto.
    + destruct (models_handler_total req res) as (resp & Hr & Hs & Hh).
      exists resp. split; [done|]. split; [|done].
      rewrite !elem_of_cons in Hs. rewrite !elem_of_cons. tauto.
  - eexists. split; [reflexivity|]. split; [repeat constructor | done].
Qed.



(** X2: every response carries the four CORS headers, on every path: the
    preflight, the routes, the 404 handler and the error handler. *)
Theorem app_cors_headers (i : Incoming) (resp : Response) :
  result (app i) = Returned resp →
  res_headers resp !! "Access-Control-Allow-Origin" = Some "*" ∧
  res_headers resp !! "Access-Control-Allow-Methods"
    = Some "GET, POST, PUT, DELETE, OPTIONS" ∧
  res_headers resp !! "Access-Control-Allow-Headers"
    = Some "Origin, X-Requested-With, Content-Type, Accept, Authorization" ∧
  res_headers resp !! "Access-Control-Max-Age" = Some "86400".
Proof.
  intros Hr.
  assert (Hh : res_headers resp = res_headers (cors_headers fresh_response)).
  { revert Hr. unfold app. destruct (String.eqb (in_method i) "OPTIONS").
    - by intros [= <-].
    - destruct (in_json i) as [body|err].
      + rewrite logged_result.
        destruct (router_total
                    {| req_method := in_method i; req_path := in_path i;
                       req_body := body |}
                    (cors_headers fresh_response)) as (resp' & Hr & _ & Hh).
        rewrite Hr. by intros [= <-].
      + by intros [= <-]. }
  rewrite Hh. by repeat split.
Qed.

(** X3: an OPTIONS request is answered 200 with an empty body by the CORS
    middleware, whatever its path and payload; nothing is logged and the
    adapter is not called. *)
Theorem app_preflight (i : Incoming) :
  in_method i = "OPTIONS" →
  trace (app i) = [] ∧
  ∃ resp, result (app i) = Returned resp ∧
          res_statusCode resp = 200 ∧
          res_body resp = None.
Proof.
  intros Hm. unfold app. rewrite Hm. split; [done|]. by eexists.
Qed.


(** X5: when [express.json()] rejects the payload of a request that is not
    OPTIONS, the error handler answers 500 "Internal server error" with the
    parser's message, whatever the route; the only log entry is the error
    handler's, the request logger never runs. *)
Theorem app_json_error (i : Incoming) (err : thrown) :
  in_method i ≠ "OPTIONS" →
  in_json i = Thrown err →
  log_entries (trace (app i)) =
    [ {| log_level_of := ERROR;
         log_message := "Unhandled error in Express middleware";
         log_endpoint := Some (in_path i);
         log_method := Some (in_method i);
         log_statusCode := Some 500 |} ] ∧
  adapter_calls (trace (app i)) = [] ∧
  ∃ resp, result (app i) = Returned resp ∧
          res_statusCode resp = 500 ∧
          res_body resp = Some (JObj {[
            "success" := JBool false;
            "error" := JStr "Internal server error";
            "message" := message_of err ]}).
Proof.
  intros Hm%String.eqb_neq Hb. unfold app. rewrite Hm, Hb.
  split; [done|]. split; [done|]. by eexists.
Qed.

End ChainFacts.

(** ** What reaches the adapter *)

Section AdapterFacts.
Context `{Runtime}.

Lemma adapter_calls_app (t1 t2 : list event) :
  adapter_calls (t1 ++ t2) = adapter_calls t1 ++ adapter_calls t2.
Proof. apply List.filter_app. Qed.

Lemma chat_catch_trace (req : Request) (res : Response) (e : thrown) :
  ∃ entry, trace (chat_catch req res e) = [EvLog entry].
Proof.
  unfold chat_catch.
  destruct (_ || _ || _); [|destruct (includes _ "model")]; by eexists.
Qed.

Lemma mapM_reshape_silent (models : list (gmap string value)) :
  trace (mapM reshape_model models) = [].
Proof.
  induction models as [|model models IH]; [done|].
  cbn [mapM]. rewrite trace_bind, reshape_model_silent.
  destruct (result (reshape_model model)); [|done].
  rewrite trace_bind, IH. by destruct (result (mapM reshape_model models)).
Qed.

(** The adapter operations of the chat handler: the one chat call of an
    accepted body, nothing else. *)
Lemma chat_handler_adapter_calls (req : Request) (res : Response) :
  adapter_calls (trace (chat_handler req res)) =
  if accepted (req_body req) then [EvChat (call_of (req_body req))] else [].
Proof.
  destruct (accepted (req_body req)) eqn:Hv;
    [rewrite chat_handler_accepted by done | by rewrite chat_handler_rejected].
  assert (Hc : ∀ e t r, chat_catch req res e = (t, r) → adapter_calls t = []).
  { intros e t r Hc. destruct (chat_catch_trace req res e) as [entry He].
    rewrite Hc in He. cbn in He. by subst t. }
  run. destruct (ollama_chat _) as [response|e].
  - pose proof (iso_or_undefined_silent (prop response "created_at")) as Hs.
    destruct (iso_or_undefined _) as [t [c|e]]; cbn in Hs; subst t; [done|].
    destruct (chat_catch req res e) as [t r] eqn:Ec.
    by rewrite adapter_calls_app, (Hc e t r).
  - destruct (chat_catch req res e) as [t r] eqn:Ec.
    by rewrite adapter_calls_app, (Hc e t r).
Qed.

(** The adapter operations of the models handler: one [list], nothing else. *)
Lemma models_handler_adapter_calls (req : Request) (res : Response) :
  adapter_calls (trace (models_handler req res)) = [EvList].
Proof.
  unfold models_handler. run. destruct ollama_list as [listed|e]; [|done].
  pose proof (mapM_reshape_silent (default [] listed)) as Hs.
  destruct (mapM reshape_model (default [] listed)) as [t [outs|e]];
    cbn in Hs; by subst t.
Qed.

Lemma adapter_calls_logged (req : Request) (next : M Response) :
  adapter_calls (trace (logged req next)) = adapter_calls (trace next).
Proof.
  unfold logged. run. destruct next as [t [resp|e]]; [|done].
  change ([EvLog ?e] ++ ?l) with (EvLog e :: l).
  cbn [adapter_calls List.filter is_adapter_call].
  fold (adapter_calls (t ++ [EvLog
    {| log_level_of := if 400 <=? res_statusCode resp then ERROR else INFO;
       log_message := "Response: " +:+ req_method req +:+ " " +:+ req_path req;
       log_endpoint := Some (req_path req);
       log_method := Some (req_method req);
       log_statusCode := Some (res_statusCode resp) |}] ++ [])).
  rewrite !adapter_calls_app. cbn. by rewrite app_nil_r.
Qed.

(** The adapter operations of one request, by the route that takes it. *)
Lemma router_adapter_calls (req : Request) (res : Response) :
  adapter_calls (trace (router req res)) = [] ∨
  adapter_calls (trace (router req res)) = [EvList] ∨
  (route_matches "POST" "/api/chat" (req_method req) (req_path req) = true ∧
   accepted (req_body req) = true ∧
   adapter_calls (trace (router req res)) = [EvChat (call_of (req_body req))]).
Proof.
  unfold router.
  destruct (find (route_takes req) routes) as [r|] eqn:Hf; [|by left].
  apply find_some in Hf as [Hin Ht].
  unfold routes in Hin. cbn [In] in Hin.
  destruct Hin as [<-|[<-|[<-|[<-|[<-|[]]]]]]; cbn [snd]; try by left.
  - rewrite chat_handler_adapter_calls.
    destruct (accepted (req_body req)); [|by left]. right; right. done.
  - right; left. apply models_handler_adapter_calls.
Qed.

(** X6: one request makes at most one call to the adapter. *)
Theorem app_at_most_one_adapter_call (i : Incoming) :
  (length (adapter_calls (trace (app i))) ≤ 1)%nat.
Proof.
  unfold app. destruct (String.eqb (in_method i) "OPTIONS"); [cbn; lia|].
  destruct (in_json i) as [body|err]; [|cbn; lia].
  rewrite adapter_calls_logged.
  destruct (router_adapter_calls
              {| req_method := in_method i; req_path := in_path i;
                 req_body := body |}
              (cors_headers fresh_response)) as [->|[->|(_ & _ & ->)]];
    cbn; lia.
Qed.

(** X7: [ollama.chat] is reached only by a request that is not OPTIONS,
    whose payload parsed, that the [POST /api/chat] route takes and whose
    body is through the validation; the call is then the one built from that
    body. *)
Theorem app_chat_call_origin (i : Incoming) (c : ChatCall) :
  EvChat c ∈ trace (app i) →
  in_method i ≠ "OPTIONS" ∧
  route_matches "POST" "/api/chat" (in_method i) (in_path i) = true ∧
  ∃ body, in_json i = Returned body ∧
          accepted body = true ∧
          c = call_of body.
Proof.
  intros Hin.
  assert (Hin' : EvChat c ∈ adapter_calls (trace (app i))).
  { apply list_elem_of_In, List.filter_In. split; [by apply list_elem_of_In | done]. }
  clear Hin. revert Hin'. unfold app.
  destruct (String.eqb (in_method i) "OPTIONS") eqn:Hm.
  { by intros ?%elem_of_nil. }
  destruct (in_json i) as [body|err]; [|by intros ?%elem_of_nil].
  rewrite adapter_calls_logged.
  destruct (router_adapter_calls
              {| req_method := in_method i; req_path := in_path i;
                 req_body := body |}
              (cors_headers fresh_response)) as [->|[->|(Hr & Hv & ->)]].
  - by intros ?%elem_of_nil.
  - by intros [=]%list_elem_of_singleton.
  - intros [= ->]%list_elem_of_singleton.
    split; [by apply String.eqb_neq|]. split; [exact Hr|]. by exists body.
Qed.

End AdapterFacts.

(** ** The chat endpoint: the remaining paths *)

Section ChatPaths.
Context `{Runtime}.


(** X8: when the adapter call fails with a message that has none of the four
    keywords, the answer is 500 "Error calling Ollama" with the adapter's
    message, or "Unknown error occurred" when that message is empty. *)
Theorem chat_other_failure_500 (req : Request) (res : Response)
    (c : ChatCall) (e : thrown) :
  c ∈ chat_calls (trace (chat_handler req res)) →
  ollama_chat c = Thrown e →
  ¬ contains (error_text e) "connect" →
  ¬ contains (error_text e) "ECONNREFUSED" →
  ¬ contains (error_text e) "fetch failed" →
  ¬ contains (error_text e) "model" →
  ∃ resp o, result (chat_handler req res) = Returned resp ∧
            res_statusCode resp = 500 ∧
            res_body resp = Some (JObj o) ∧
            o !! "success" = Some (JBool false) ∧
            o !! "error" = Some (JStr "Error calling Ollama") ∧
            o !! "message" =
              Some (JStr (if String.eqb (error_text e) ""
                          then "Unknown error occurred"
                          else error_text e)).
Proof.
  intros [Hv ->]%chat_call_inv He
    H1%includes_false H2%includes_false H3%includes_false H4%includes_false.
  rewrite (chat_handler_failed req res e Hv He).
  unfold chat_catch. rewrite H1, H2, H3, H4. cbn [orb].
  eexists _, _. split; [reflexivity|]. do 4 (split; [done|]).
  unfold js_or. cbn [truthy]. by destruct (String.eqb (error_text e) "").
Qed.




(** X12: a body without [model] is served with "llama3.1"; any other value
    of [model], [null] included, goes to the adapter as it is. *)
Theorem chat_default_model (req : Request) (res : Response) :
  accepted (req_body req) = true →
  ∃ c, chat_calls (trace (chat_handler req res)) = [c] ∧
       (req_body req !! "model" = None → call_model c = JStr "llama3.1") ∧
       (∀ v, req_body req !! "model" = Some v → v ≠ JUndefined →
             call_model c = v).
Proof.
  intros Hv. exists (call_of (req_body req)).
  split; [by rewrite chat_calls_of_handler, Hv|].
  unfold call_of, model_of, prop. cbn [call_model]. split.
  - by intros ->.
  - intros v -> Hne. by destruct v.
Qed.

(** X13: when [messages] is an array, [message] is not looked at: two bodies
    that differ only in [message] lead to the same adapter call, whose turns
    are the array. *)
Theorem chat_messages_over_message (req1 req2 : Request) (res : Response)
    (l : list value) :
  differ_only_in "message" (req_body req1) (req_body req2) →
  req_body req1 !! "messages" = Some (JArr l) →
  chat_calls (trace (chat_handler req1 res)) =
    [ {| call_model := model_of (req_body req1);
         call_messages := l;
         call_stream := false |} ] ∧
  chat_calls (trace (chat_handler req2 res)) =
  chat_calls (trace (chat_handler req1 res)).
Proof.
  intros Hd Hms.
  assert (Hms2 : req_body req2 !! "messages" = Some (JArr l)).
  { by rewrite <- (Hd "messages"). }
  assert (Hmo : prop (req_body req2) "model" = prop (req_body req1) "model").
  { apply prop_agree. symmetry. by apply Hd. }
  rewrite !chat_calls_of_handler. unfold accepted, call_of, model_of.
  rewrite Hmo, (prop_lookup_Some _ _ _ Hms), (prop_lookup_Some _ _ _ Hms2).
  by rewrite !andb_false_r.
Qed.

(** X14: a [messages] value that is truthy but not an array (a string, an
    object, a number) passes the validation; the adapter then gets the
    wrapped [message] when there is one, and no turn at all otherwise. *)
Theorem chat_messages_not_an_array (req : Request) (res : Response) :
  truthy (prop (req_body req) "messages") = true →
  isArray (prop (req_body req) "messages") = false →
  chat_calls (trace (chat_handler req res)) =
  [ {| call_model := model_of (req_body req);
       call_messages :=
         if truthy (prop (req_body req) "message")
         then [JObj {[ "role" := JStr "user";
                       "content" := prop (req_body req) "message" ]}]
         else [];
       call_stream := false |} ].
Proof.
  intros Ht Ha. rewrite chat_calls_of_handler.
  unfold accepted, call_of, chatMessages_of. rewrite Ht, Ha.
  by rewrite andb_false_r.
Qed.

(** X19: the [catch] block of the first [server.ts] answers like the final
    one whenever the adapter's message does not contain "fetch failed". *)
Theorem chat_catch_early_agrees (req : Request) (res : Response) (e : thrown) :
  ¬ contains (error_text e) "fetch failed" →
  result (chat_catch req res e) = Returned (chat_catch_early res e).
Proof.
  intros Hf%includes_false. unfold chat_catch, chat_catch_early.
  rewrite Hf, orb_false_r.
  destruct (_ || _); [done|]. by destruct (includes _ "model").
Qed.

(** X20: for a message with "fetch failed" and neither "connect" nor
    "ECONNREFUSED", the final [catch] block answers 503 where the first
    [server.ts] answered 404 or 500. *)
Theorem chat_catch_early_differs (req : Request) (res : Response) (e : thrown) :
  contains (error_text e) "fetch failed" →
  ¬ contains (error_text e) "connect" →
  ¬ contains (error_text e) "ECONNREFUSED" →
  (∃ resp, result (chat_catch req res e) = Returned resp ∧
           res_statusCode resp = 503) ∧
  res_statusCode (chat_catch_early res e) =
    if includes (error_text e) "model" then 404 else 500.
Proof.
  intros Hf%includes_iff H1%includes_false H2%includes_false.
  unfold chat_catch, chat_catch_early. rewrite Hf, H1, H2. cbn [orb].
  split; [by eexists|]. by destruct (includes _ "model").
Qed.

End ChatPaths.

(** ** The models endpoint and the startup check: the remaining paths *)

Section ModelsPaths.
Context `{Runtime}.

(** X15: whatever makes [ollama.list()] fail, a refused connection
    included, [GET /api/models] answers 500 "Error fetching models" with the
    adapter's message: this handler does not classify. *)
Theorem models_failure_500 (req : Request) (res : Response) (e : thrown) :
  ollama_list = Thrown e →
  ∃ resp, result (models_handler req res) = Returned resp ∧
          res_statusCode resp = 500 ∧
          res_body resp = Some (JObj {[
            "success" := JBool false;
            "error" := JStr "Error fetching models";
            "message" := JStr (error_text e) ]}).
Proof.
  intros He. unfold models_handler. run. rewrite He. by eexists.
Qed.

(** X16: when the adapter's answer has no [models] field, or an empty one,
    the answer is a success with an empty list. *)
Theorem models_none_listed (req : Request) (res : Response)
    (listed : option (list (gmap string value))) :
  ollama_list = Returned listed →
  default [] listed = [] →
  ∃ resp, result (models_handler req res) = Returned resp ∧
          res_statusCode resp = res_statusCode res ∧
          res_body resp = Some (JObj {[ "success" := JBool true;
                                        "models" := JArr [] ]}).
Proof.
  intros Hl Hnil. unfold models_handler. run. rewrite Hl, Hnil. by eexists.
Qed.

Lemma mapM_reshape_unreadable (models : list (gmap string value))
    (model : gmap string value) (e : thrown) :
  model ∈ models →
  truthy (prop model "modified_at") = true →
  date_toISOString (prop model "modified_at") = Thrown e →
  ∃ e', result (mapM reshape_model models) = Thrown e'.
Proof.
  intros Hin Ht He. induction Hin as [model models|model model' models Hin IH].
  - exists e. cbn [mapM]. rewrite result_bind.
    unfold reshape_model at 1. rewrite result_bind.
    unfold iso_or_undefined. rewrite Ht. run. by rewrite He.
  - destruct (IH Ht He) as [e' He']. cbn [mapM]. rewrite result_bind.
    destruct (result (reshape_model model')) as [out|e'']; [|by eexists].
    rewrite result_bind, He'. by eexists.
Qed.

(** X17: one descriptor whose [modified_at] the [Date] constructor cannot
    read fails the whole listing: the answer is 500 "Error fetching models"
    and no descriptor is returned. *)
Theorem models_unreadable_date (req : Request) (res : Response)
    (listed : option (list (gmap string value)))
    (model : gmap string value) (e : thrown) :
  ollama_list = Returned listed →
  model ∈ default [] listed →
  truthy (prop model "modified_at") = true →
  date_toISOString (prop model "modified_at") = Thrown e →
  ∃ resp o, result (models_handler req res) = Returned resp ∧
            res_statusCode resp = 500 ∧
            res_body resp = Some (JObj o) ∧
            o !! "success" = Some (JBool false) ∧
            o !! "error" = Some (JStr "Error fetching models") ∧
            o !! "models" = None.
Proof.
  intros Hl Hin Ht He.
  destruct (mapM_reshape_unreadable _ model e Hin Ht He) as [e' He'].
  unfold models_handler. run. rewrite Hl.
  destruct (mapM reshape_model (default [] listed)) as [t [outs|e'']];
    cbn in He'; [done|].
  by eexists _, _.
Qed.

(** X18: the startup check calls [ollama.list()] once and never throws: it
    logs one entry, INFO when the daemon answered and WARN when it did not. *)
Theorem checkOllamaConnection_safe :
  result checkOllamaConnection = Returned tt ∧
  adapter_calls (trace checkOllamaConnection) = [EvList] ∧
  log_level_of <$> log_entries (trace checkOllamaConnection) =
    [ match ollama_list with Returned _ => INFO | Thrown _ => WARN end ].
Proof.
  unfold checkOllamaConnection. run. by destruct ollama_list.
Qed.

End ModelsPaths.

(** ** The chat UI *)

Section UiFacts.
Variable trim : string → string.
Variable js_String : value → string.
Variable null_read_message : string → string.
Variable baseUrl chatUrl : string.

Local Abbreviation attempt := (try_send js_String null_read_message).
Local Abbreviation finish := (send_finish js_String null_read_message baseUrl).
Local Abbreviation begin := (send_begin trim chatUrl).

Lemma js_or_truthy (a b : value) : truthy b = true → truthy (js_or a b) = true.
Proof. unfold js_or. by destruct (truthy a) eqn:Ha. Qed.

Lemma truthy_not_null (v : value) : truthy v = true → v ≠ JNull.
Proof. by intros Ht ->. Qed.

(** The [try] block replies only with a truthy content, and fails only with
    a truthy error. *)
Lemma try_send_settled (f : fetched) (s : settled) :
  attempt f = inr s →
  match s with
  | Reply content => truthy content = true
  | Failure error => truthy error = true
  end.
Proof.
  unfold try_send. destruct f as [err|response]; [done|].
  destruct (negb (ans_ok response)).
  - by destruct (read _ _ "message").
  - destruct (ans_json response) as [err|data]; [done|].
    destruct (read _ data "success") as [err|success]; [done|].
    destruct (truthy success); cbn [andb].
    + destruct (truthy (opt_prop data "response")) eqn:Hr.
      * by intros [= <-].
      * intros [= <-]. by do 2 apply js_or_truthy.
    + intros [= <-]. by do 2 apply js_or_truthy.
Qed.

(** How one send ends, on every path. *)
Lemma send_finish_cases (now : string) (f : fetched) (st : UiState) :
  ui_loading (finish now f st) = false ∧
  ui_input (finish now f st) = ui_input st ∧
  ui_model (finish now f st) = ui_model st ∧
  ((∃ content,
      truthy content = true ∧
      ui_messages (finish now f st) =
        ui_messages st ++ [ {| msg_role := assistant; msg_content := content;
                               msg_timestamp := now |} ] ∧
      ui_error (finish now f st) = ui_error st) ∨
   (ui_messages (finish now f st) = ui_messages st ∧
    ui_error (finish now f st) ≠ JNull)).
Proof.
  unfold send_finish. cbn [ui_loading ui_input ui_model ui_messages ui_error].
  do 3 (split; [done|]).
  destruct (attempt f) as [err|[content|error]] eqn:Hs.
  - by right.
  - left. exists content. by pose proof (try_send_settled f _ Hs).
  - right. split; [done|]. apply truthy_not_null.
    by pose proof (try_send_settled f _ Hs).
Qed.

(** X21: one whole send, from a state that passes the guard: the user turn
    (the trimmed input) is appended and stays whatever happens; then either
    one assistant turn follows and no error is shown, or no turn follows and
    an error is set; the input is cleared and [loading] is off again on every
    path. *)
Theorem send_round_trip (now now' : string) (f : fetched)
    (st st1 : UiState) (rq : FetchRequest) :
  begin now st = Some (st1, rq) →
  ∃ rest,
    ui_messages (finish now' f st1) =
      ui_messages st
        ++ {| msg_role := user; msg_content := JStr (trim (ui_input st));
              msg_timestamp := now |} :: rest ∧
    ((rest = [] ∧ ui_error (finish now' f st1) ≠ JNull) ∨
     (∃ content, truthy content = true ∧
        rest = [ {| msg_role := assistant; msg_content := content;
                    msg_timestamp := now' |} ] ∧
        ui_error (finish now' f st1) = JNull)) ∧
    ui_input (finish now' f st1) = "" ∧
    ui_loading (finish now' f st1) = false ∧
    ui_model (finish now' f st1) = ui_model st.
Proof.
  unfold send_begin. destruct (_ || _); [done|]. intros [= <- _].
  destruct (send_finish_cases now' f
    {| ui_messages := ui_messages st
         ++ [ {| msg_role := user; msg_content := JStr (trim (ui_input st));
                 msg_timestamp := now |} ];
       ui_input := ""; ui_loading := true; ui_error := JNull;
       ui_model := ui_model st |})
    as (Hl & Hi & Hm & [(content & Ht & Hms & He)|[Hms He]]);
    cbn [ui_messages ui_input ui_model ui_error] in *.
  - eexists. split; [by rewrite Hms, <- app_assoc|].
    split; [right; by exists content | done].
  - exists []. split; [by rewrite Hms|]. split; [by left | done].
Qed.

(** X24: the UI reads the two error fields of a JSON answer in opposite
    orders: for a status outside 200-299 it shows [message] before [error],
    for an unsuccessful 2xx answer [error] before [message]. *)
Theorem ui_error_field_order (now : string) (st : UiState)
    (o : gmap string value) (m r : string) (code : Z) (statusText : string) :
  o !! "message" = Some (JStr m) →
  o !! "error" = Some (JStr r) →
  m ≠ "" →
  r ≠ "" →
  truthy (prop o "success") = false →
  ui_error (finish now
              (FetchAnswered {| ans_ok := false; ans_status := code;
                                ans_statusText := statusText;
                                ans_json := inr (JObj o) |}) st) = JStr m ∧
  ui_error (finish now
              (FetchAnswered {| ans_ok := true; ans_status := code;
                                ans_statusText := statusText;
                                ans_json := inr (JObj o) |}) st) = JStr r.
Proof.
  intros Hm Hr Hmne%String.eqb_neq Hrne%String.eqb_neq Hs.
  unfold send_finish, try_send, read, opt_prop, js_or.
  cbn [ui_error negb ans_ok ans_json].
  rewrite Hs, (prop_lookup_Some _ _ _ Hm), (prop_lookup_Some _ _ _ Hr).
  cbn [truthy andb]. by rewrite Hmne, Hrne.
Qed.

(** X25: an answer with a status outside 200-299 whose body is not JSON, or
    is JSON without [message] and [error], is shown as
    "Server error: <status> <status text>"; no turn is added. *)
Theorem ui_unreadable_error_body (now : string) (st : UiState)
    (response : HttpAnswer) :
  ans_ok response = false →
  (match ans_json response with
   | inl _ => True
   | inr data => ∃ o, data = JObj o ∧ truthy (prop o "message") = false
                      ∧ truthy (prop o "error") = false
   end) →
  ui_error (finish now (FetchAnswered response) st) =
    JStr ("Server error: " +:+ pretty (ans_status response) +:+ " "
          +:+ ans_statusText response) ∧
  ui_messages (finish now (FetchAnswered response) st) = ui_messages st.
Proof.
  intros Hok Hbody.
  unfold send_finish, try_send. cbn [ui_error ui_messages].
  rewrite Hok. cbn [negb].
  destruct (ans_json response) as [err|data].
  - done.
  - destruct Hbody as (o & -> & Hm & He).
    cbn [read opt_prop]. unfold js_or. by rewrite Hm, He.
Qed.

End UiFacts.

(** ** The UI against the proxy *)

Section UiAndProxy.
Context `{Runtime}.
Variable trim : string → string.
Variable js_String : value → string.
Variable null_read_message : string → string.
Variable baseUrl chatUrl : string.

(** X22: whatever the UI sends passes the proxy's validation: the adapter
    is called with the selected model and one user turn holding the trimmed
    input, so the UI never gets the 400 answer. *)
Theorem ui_request_accepted (now : string) (st st1 : UiState)
    (rq : FetchRequest) (res : Response) :
  send_begin trim chatUrl now st = Some (st1, rq) →
  accepted (rq_body rq) = true ∧
  chat_calls (trace (chat_handler (post_chat (rq_body rq)) res)) =
  [ {| call_model := JStr (ui_model st);
       call_messages := [JObj {[ "role" := JStr "user";
                                 "content" := JStr (trim (ui_input st)) ]}];
       call_stream := false |} ].
Proof.
  unfold send_begin.
  destruct (String.eqb (trim (ui_input st)) "") eqn:Hne; [done|].
  destruct (ui_loading st); [done|]. cbn [orb]. intros [= _ <-].
  assert (Ht : truthy (JStr (trim (ui_input st))) = true).
  { cbn [truthy]. by rewrite Hne. }
  assert (Hv : accepted {[ "message" := JStr (trim (ui_input st));
                           "model" := JStr (ui_model st) ]} = true).
  { unfold accepted.
    change (prop _ "message") with (JStr (trim (ui_input st))).
    by rewrite Ht. }
  cbn [rq_body msg_content]. split; [exact Hv|].
  rewrite chat_calls_of_handler. cbn [post_chat req_body]. rewrite Hv.
  unfold call_of, chatMessages_of, model_of.
  change (prop _ "message") with (JStr (trim (ui_input st))).
  change (prop _ "messages") with JUndefined.
  change (prop _ "model") with (JStr (ui_model st)).
  by rewrite Ht.
Qed.

(** X23: when the adapter fails, the UI shows the [message] field of the
    proxy's answer (the adapter's own message for a 404 or 500, the fixed
    hint for a 503), never the [error] kind; no turn is added. *)
Theorem ui_shows_proxy_message (req : Request) (res resp : Response)
    (e : thrown) (statusText now : string) (st : UiState) :
  result (chat_catch req res e) = Returned resp →
  ∃ o m,
    res_body resp = Some (JObj o) ∧
    o !! "message" = Some (JStr m) ∧
    m ≠ "" ∧
    ui_error (send_finish js_String null_read_message baseUrl now
                (FetchAnswered (over_the_wire statusText resp)) st) = JStr m ∧
    ui_messages (send_finish js_String null_read_message baseUrl now
                   (FetchAnswered (over_the_wire statusText resp)) st)
      = ui_messages st.
Proof.
  assert (Hshow : ∀ code (m r : string),
    m ≠ "" → code ∈ [503; 404; 500] →
    let resp' := json (JObj {[ "success" := JBool false; "error" := JStr r;
                               "message" := JStr m ]}) (status code res) in
    ui_error (send_finish js_String null_read_message baseUrl now
                (FetchAnswered (over_the_wire statusText resp')) st) = JStr m ∧
    ui_messages (send_finish js_String null_read_message baseUrl now
                   (FetchAnswered (over_the_wire statusText resp')) st)
      = ui_messages st).
  { intros code m r Hm%String.eqb_neq Hcode resp'.
    assert (Hok : ans_ok (over_the_wire statusText resp') = false).
    { unfold over_the_wire, resp'. cbn [ans_ok json status res_statusCode].
      rewrite !elem_of_cons in Hcode.
      destruct Hcode as [->|[->|[->|Hn]]]; [done..|by apply elem_of_nil in Hn]. }
    unfold send_finish, try_send. cbn [ui_error ui_messages]. rewrite Hok.
    cbn [negb over_the_wire ans_json resp' json res_body read opt_prop].
    change (prop _ "message") with (JStr m).
    unfold js_or at 1. cbn [truthy]. rewrite Hm.
    cbn [negb interpolate catch_message]. split; reflexivity. }
  unfold chat_catch.
  destruct (_ || _ || _) eqn:Hconn; [|destruct (includes _ "model") eqn:Hmodel].
  - intros [= <-]. eexists _, _. split; [reflexivity|]. split; [done|].
    split; [done|]. apply Hshow; [done | repeat constructor].
  - intros [= <-]. eexists _, _. split; [reflexivity|]. split; [done|].
    assert (Hne : error_text e ≠ "").
    { intros Heq. by rewrite Heq in Hmodel. }
    split; [done|]. apply Hshow; [done | repeat constructor].
  - intros [= <-]. unfold js_or. cbn [truthy].
    destruct (String.eqb (error_text e) "") eqn:Hempty; cbn [negb].
    + eexists _, _. split; [reflexivity|]. split; [done|].
      split; [done|]. apply Hshow; [done | repeat constructor].
    + apply String.eqb_neq in Hempty.
      eexists _, _. split; [reflexivity|]. split; [done|].
      split; [done|]. apply Hshow; [done | repeat constructor].
Qed.

End UiAndProxy.

(** ** The UI's configuration *)

Section ConfigFacts.
Variable js_String : value → string.
Variable cannot_destructure : string.

(** X26: [getApiUrl] drops one leading slash of the endpoint and no more:
    with or without it the URL is the base, a slash and the endpoint. *)
Theorem getApiUrl_leading_slash (config : gmap string value)
    (base endpoint : string) :
  getApiBaseUrl js_String cannot_destructure config = Returned base →
  getApiUrl js_String cannot_destructure config ("/" +:+ endpoint)
    = Returned (base +:+ "/" +:+ endpoint) ∧
  (startsWith endpoint "/" = false →
   getApiUrl js_String cannot_destructure config endpoint
     = Returned (base +:+ "/" +:+ endpoint)).
Proof.
  intros Hb. unfold getApiUrl. rewrite Hb. split; [|by intros ->].
  assert (Hs : startsWith ("/" +:+ endpoint) "/" = true).
  { unfold startsWith. cbv [String.append].
    change (String.prefix "/" (String ?a endpoint))
      with (if Ascii.ascii_dec a a then String.prefix "" endpoint else false).
    destruct (Ascii.ascii_dec _ _) as [_|Hne]; [by destruct endpoint | done]. }
  by rewrite Hs.
Qed.

(** X27: after the validation the configuration always has a [server]
    object with a truthy [host] and [port], the other settings are as they
    were, [getApiBaseUrl] cannot throw, and validating again changes
    nothing. *)
Theorem validate_establishes_server (config : gmap string value) :
  (∃ o, prop (validate config) "server" = JObj o ∧
        truthy (prop o "host") = true ∧
        truthy (prop o "port") = true ∧
        getApiBaseUrl js_String cannot_destructure (validate config) =
          Returned ("http://" +:+ interpolate js_String (prop o "host")
                    +:+ ":" +:+ interpolate js_String (prop o "port"))) ∧
  (∀ k, k ≠ "server" → validate config !! k = config !! k) ∧
  validate (validate config) = validate config.
Proof.
  assert (Hdefault : ∀ c : gmap string value,
    prop (<["server" := JObj {[ "host" := JStr "localhost";
                                "port" := JNum 3000%float ]}]> c) "server"
    = JObj {[ "host" := JStr "localhost"; "port" := JNum 3000%float ]}).
  { intros c. unfold prop. by rewrite lookup_insert_eq. }
  assert (Hgood : ∀ c o,
    prop c "server" = JObj o →
    truthy (prop o "host") = true →
    truthy (prop o "port") = true →
    (∃ o, prop c "server" = JObj o ∧
          truthy (prop o "host") = true ∧
          truthy (prop o "port") = true ∧
          getApiBaseUrl js_String cannot_destructure c =
            Returned ("http://" +:+ interpolate js_String (prop o "host")
                      +:+ ":" +:+ interpolate js_String (prop o "port"))) ∧
    validate c = c).
  { intros c o Hs Hh Hp. split.
    - exists o. unfold getApiBaseUrl. rewrite Hs. by repeat split.
    - unfold validate. rewrite Hs. cbn [truthy opt_prop negb orb].
      by rewrite Hh, Hp. }
  destruct (negb (truthy (prop config "server"))
            || negb (truthy (opt_prop (prop config "server") "host"))
            || negb (truthy (opt_prop (prop config "server") "port"))) eqn:Hbad.
  - assert (Hv : validate config =
      <["server" := JObj {[ "host" := JStr "localhost";
                            "port" := JNum 3000%float ]}]> config).
    { unfold validate. by rewrite Hbad. }
    rewrite !Hv.
    destruct (Hgood _ _ (Hdefault config) eq_refl eq_refl) as [Hex Hid].
    split; [exact Hex|]. split; [|exact Hid].
    intros k Hk. by rewrite lookup_insert_ne.
  - assert (Hv : validate config = config).
    { unfold validate. by rewrite Hbad. }
    rewrite !Hv.
    apply orb_false_elim in Hbad as [Hbad Hp].
    apply orb_false_elim in Hbad as [Hs Hh].
    apply negb_false_iff in Hs, Hh, Hp.
    assert (∃ o, prop config "server" = JObj o) as [o Hserver].
    { destruct (prop config "server"); try done. by eexists. }
    rewrite Hserver in Hh, Hp. cbn [opt_prop] in Hh, Hp.
    destruct (Hgood config o Hserver Hh Hp) as [Hex Hid].
    split; [exact Hex|]. by split.
Qed.

(** X28: a configuration that names a host but no usable port (none, 0 or
    an empty string) does not keep its host: the whole server entry becomes
    localhost:3000. *)
Theorem validate_partial_server (config o : gmap string value) :
  prop config "server" = JObj o →
  truthy (prop o "port") = false →
  prop (validate config) "server"
    = JObj {[ "host" := JStr "localhost"; "port" := JNum 3000%float ]} ∧
  getApiBaseUrl js_String cannot_destructure (validate config)
    = Returned ("http://localhost:" +:+ js_String (JNum 3000%float)).
Proof.
  intros Hs Hp. unfold validate. rewrite Hs. cbn [opt_prop truthy negb orb].
  rewrite Hp, orb_true_r.
  assert (Hd : prop (<["server" := JObj {[ "host" := JStr "localhost";
                                           "port" := JNum 3000%float ]}]> config)
                 "server"
               = JObj {[ "host" := JStr "localhost"; "port" := JNum 3000%float ]}).
  { unfold prop. by rewrite lookup_insert_eq. }
  split; [exact Hd|]. unfold getApiBaseUrl. by rewrite Hd.
Qed.

End ConfigFacts.

(** ** The further properties on concrete inputs *)

Lemma app_cors_headers_witness :
  ∃ resp, result (@app healthy stray_get) = Returned resp ∧
    res_headers resp !! "Access-Control-Allow-Origin" = Some "*" ∧
    res_headers resp !! "Access-Control-Allow-Methods"
      = Some "GET, POST, PUT, DELETE, OPTIONS" ∧
    res_headers resp !! "Access-Control-Allow-Headers"
      = Some "Origin, X-Requested-With, Content-Type, Accept, Authorization" ∧
    res_headers resp !! "Access-Control-Max-Age" = Some "86400".
Proof.
  eexists. split; [reflexivity|].
  apply (@app_cors_headers healthy stray_get). reflexivity.
Defined.

Lemma app_preflight_witness :
  let i := {| in_method := "OPTIONS"; in_path := "/no/such/route";
              in_json := Thrown (ErrorObj "Unexpected end of JSON input") |} in
  trace (@app healthy i) = [] ∧
  ∃ resp, result (@app healthy i) = Returned resp ∧
          res_statusCode resp = 200 ∧
          res_body resp = None.
Proof. intros i. apply (@app_preflight healthy i). reflexivity. Defined.


Lemma app_json_error_witness :
  log_entries (trace (@app healthy malformed_post)) =
    [ {| log_level_of := ERROR;
         log_message := "Unhandled error in Express middleware";
         log_endpoint := Some "/nope";
         log_method := Some "POST";
         log_statusCode := Some 500 |} ] ∧
  adapter_calls (trace (@app healthy malformed_post)) = [] ∧
  ∃ resp, result (@app healthy malformed_post) = Returned resp ∧
          res_statusCode resp = 500 ∧
          res_body resp = Some (JObj {[
            "success" := JBool false;
            "error" := JStr "Internal server error";
            "message" := JStr "Unexpected token } in JSON at position 1" ]}).
Proof.
  apply (@app_json_error healthy malformed_post
           (ErrorObj "Unexpected token } in JSON at position 1"));
    [discriminate | reflexivity].
Defined.

Lemma app_chat_call_origin_witness :
  let body : gmap string value := {[ "message" := JStr "hi" ]} in
  let i := {| in_method := "POST"; in_path := "/api/chat";
              in_json := Returned body |} in
  in_method i ≠ "OPTIONS" ∧
  @route_matches healthy "POST" "/api/chat" (in_method i) (in_path i) = true ∧
  ∃ body', in_json i = Returned body' ∧
           accepted body' = true ∧
           call_of body = call_of body'.
Proof.
  intros body i.
  apply (@app_chat_call_origin healthy i (call_of body)).
  vm_compute. repeat constructor.
Defined.

Lemma chat_other_failure_500_witness :
  let R := failing "request timed out" in
  let req := post_chat {[ "message" := JStr "hi" ]} in
  ∃ resp o, result (@chat_handler R req fresh_response) = Returned resp ∧
            res_statusCode resp = 500 ∧
            res_body resp = Some (JObj o) ∧
            o !! "success" = Some (JBool false) ∧
            o !! "error" = Some (JStr "Error calling Ollama") ∧
            o !! "message" = Some (JStr "request timed out").
Proof.
  intros R req.
  apply (@chat_other_failure_500 R req fresh_response
           (call_of (req_body req)) (ErrorObj "request timed out")).
  - vm_compute. constructor.
  - reflexivity.
  - by apply includes_false.
  - by apply includes_false.
  - by apply includes_false.
  - by apply includes_false.
Defined.




Lemma chat_default_model_witness :
  let req := post_chat {[ "message" := JStr "hi" ]} in
  ∃ c, chat_calls (trace (@chat_handler healthy req fresh_response)) = [c] ∧
       (req_body req !! "model" = None → call_model c = JStr "llama3.1") ∧
       (∀ v, req_body req !! "model" = Some v → v ≠ JUndefined →
             call_model c = v).
Proof.
  intros req. apply (@chat_default_model healthy req fresh_response).
  reflexivity.
Defined.

Lemma chat_messages_over_message_witness :
  let turns := [ JObj {[ "role" := JStr "user"; "content" := JStr "Hello!" ]} ] in
  let body : gmap string value := {[ "messages" := JArr turns ]} in
  let req1 := post_chat body in
  let req2 := post_chat (<["message" := JStr "not forwarded"]> body) in
  chat_calls (trace (@chat_handler healthy req1 fresh_response)) =
    [ {| call_model := model_of (req_body req1);
         call_messages := turns;
         call_stream := false |} ] ∧
  chat_calls (trace (@chat_handler healthy req2 fresh_response)) =
  chat_calls (trace (@chat_handler healthy req1 fresh_response)).
Proof.
  intros turns body req1 req2.
  apply (@chat_messages_over_message healthy req1 req2 fresh_response turns);
    [|reflexivity].
  intros k Hk. symmetry. by apply lookup_insert_ne.
Defined.

Lemma chat_messages_not_an_array_witness :
  let req := post_chat {[ "messages" := JStr "hello" ]} in
  chat_calls (trace (@chat_handler healthy req fresh_response)) =
  [ {| call_model := model_of (req_body req);
       call_messages :=
         if truthy (prop (req_body req) "message")
         then [JObj {[ "role" := JStr "user";
                       "content" := prop (req_body req) "message" ]}]
         else [];
       call_stream := false |} ].
Proof.
  intros req.
  apply (@chat_messages_not_an_array healthy req fresh_response); reflexivity.
Defined.

Lemma models_failure_500_witness :
  let message := "connect ECONNREFUSED 127.0.0.1:11434" in
  let req := {| req_method := "GET"; req_path := "/api/models"; req_body := ∅ |} in
  ∃ resp, result (@models_handler (failing message) req fresh_response)
            = Returned resp ∧
          res_statusCode resp = 500 ∧
          res_body resp = Some (JObj {[
            "success" := JBool false;
            "error" := JStr "Error fetching models";
            "message" := JStr message ]}).
Proof.
  intros message req.
  apply (@models_failure_500 (failing message) req fresh_response
           (ErrorObj message)). reflexivity.
Defined.

Lemma models_none_listed_witness :
  let R := answering JNull JNull in
  let req := {| req_method := "GET"; req_path := "/api/models"; req_body := ∅ |} in
  ∃ resp, result (@models_handler R req fresh_response) = Returned resp ∧
          res_statusCode resp = 200 ∧
          res_body resp = Some (JObj {[ "success" := JBool true;
                                        "models" := JArr [] ]}).
Proof.
  intros R req.
  apply (@models_none_listed R req fresh_response None); reflexivity.
Defined.

Lemma models_unreadable_date_witness :
  let good : gmap string value :=
    {[ "name" := JStr "llama3.1"; "modified_at" := JStr "2024-01-01T00:00:00Z" ]} in
  let bad : gmap string value :=
    {[ "name" := JStr "mistral"; "modified_at" := JStr "last week" ]} in
  let req := {| req_method := "GET"; req_path := "/api/models"; req_body := ∅ |} in
  ∃ resp o, result (@models_handler (listing [good; bad]) req fresh_response)
              = Returned resp ∧
            res_statusCode resp = 500 ∧
            res_body resp = Some (JObj o) ∧
            o !! "success" = Some (JBool false) ∧
            o !! "error" = Some (JStr "Error fetching models") ∧
            o !! "models" = None.
Proof.
  intros good bad req.
  apply (@models_unreadable_date (listing [good; bad]) req fresh_response
           (Some [good; bad]) bad (ErrorObj "Invalid time value"));
    [reflexivity | repeat constructor | reflexivity | reflexivity].
Defined.

Lemma chat_catch_early_agrees_witness :
  let e := ErrorObj "model 'llama9' not found" in
  let req := post_chat ∅ in
  result (chat_catch req fresh_response e)
    = Returned (chat_catch_early fresh_response e).
Proof.
  intros e req. apply (chat_catch_early_agrees req fresh_response e).
  by apply includes_false.
Defined.

Lemma chat_catch_early_differs_witness :
  let e := ErrorObj "TypeError: fetch failed" in
  let req := post_chat ∅ in
  (∃ resp, result (chat_catch req fresh_response e) = Returned resp ∧
           res_statusCode resp = 503) ∧
  res_statusCode (chat_catch_early fresh_response e) =
    if includes (error_text e) "model" then 404 else 500.
Proof.
  intros e req. apply (chat_catch_early_differs req fresh_response e).
  - by exists "TypeError: ", "".
  - by apply includes_false.
  - by apply includes_false.
Defined.

Lemma send_round_trip_witness :
  let now := "2024-01-01T00:00:00.000Z" in
  let now' := "2024-01-01T00:00:05.000Z" in
  let f := FetchRejected (TypeError_ "Failed to fetch") in
  ∃ st1 rq,
    send_begin sample_trim "http://localhost:3000/api/chat" now sample_state
      = Some (st1, rq) ∧
  ∃ rest,
    ui_messages (send_finish sample_String sample_null_read
                   "http://localhost:3000" now' f st1) =
      ui_messages sample_state
        ++ {| msg_role := user;
              msg_content := JStr (sample_trim (ui_input sample_state));
              msg_timestamp := now |} :: rest ∧
    ((rest = [] ∧
      ui_error (send_finish sample_String sample_null_read
                  "http://localhost:3000" now' f st1) ≠ JNull) ∨
     (∃ content, truthy content = true ∧
        rest = [ {| msg_role := assistant; msg_content := content;
                    msg_timestamp := now' |} ] ∧
        ui_error (send_finish sample_String sample_null_read
                    "http://localhost:3000" now' f st1) = JNull)) ∧
    ui_input (send_finish sample_String sample_null_read
                "http://localhost:3000" now' f st1) = "" ∧
    ui_loading (send_finish sample_String sample_null_read
                  "http://localhost:3000" now' f st1) = false ∧
    ui_model (send_finish sample_String sample_null_read
                "http://localhost:3000" now' f st1) = ui_model sample_state.
Proof.
  intros now now' f. eexists _, _. split; [reflexivity|].
  eapply (send_round_trip sample_trim sample_String sample_null_read
            "http://localhost:3000" "http://localhost:3000/api/chat"
            now now' f sample_state).
  reflexivity.
Defined.

Lemma ui_request_accepted_witness :
  let now := "2024-01-01T00:00:00.000Z" in
  ∃ st1 rq,
    send_begin sample_trim "http://localhost:3000/api/chat" now sample_state
      = Some (st1, rq) ∧
    accepted (rq_body rq) = true ∧
    chat_calls (trace (@chat_handler healthy (post_chat (rq_body rq)) fresh_response)) =
    [ {| call_model := JStr "mistral";
         call_messages := [JObj {[ "role" := JStr "user";
                                   "content" := JStr "hi" ]}];
         call_stream := false |} ].
Proof.
  intros now. eexists _, _. split; [reflexivity|].
  eapply (@ui_request_accepted healthy sample_trim
            "http://localhost:3000/api/chat" now sample_state).
  reflexivity.
Defined.

Lemma ui_shows_proxy_message_witness :
  let e := ErrorObj "model 'llama9' not found, try pulling it first" in
  let req := post_chat {[ "message" := JStr "hi"; "model" := JStr "llama9" ]} in
  let now := "2024-01-01T00:00:05.000Z" in
  ∃ resp, result (chat_catch req fresh_response e) = Returned resp ∧
  ∃ o m,
    res_body resp = Some (JObj o) ∧
    o !! "message" = Some (JStr m) ∧
    m ≠ "" ∧
    ui_error (send_finish sample_String sample_null_read "http://localhost:3000"
                now (FetchAnswered (over_the_wire "Not Found" resp)) sample_state)
      = JStr m ∧
    ui_messages (send_finish sample_String sample_null_read "http://localhost:3000"
                   now (FetchAnswered (over_the_wire "Not Found" resp)) sample_state)
      = ui_messages sample_state.
Proof.
  intros e req now. eexists. split; [reflexivity|].
  eapply (ui_shows_proxy_message sample_String sample_null_read
            "http://localhost:3000" req fresh_response _ e "Not Found" now
            sample_state).
  reflexivity.
Defined.

Lemma ui_error_field_order_witness :
  let o : gmap string value :=
    {[ "success" := JBool false; "error" := JStr "Model not found";
       "message" := JStr "model 'llama9' not found" ]} in
  let now := "2024-01-01T00:00:05.000Z" in
  ui_error (send_finish sample_String sample_null_read "http://localhost:3000" now
              (FetchAnswered {| ans_ok := false; ans_status := 404;
                                ans_statusText := "Not Found";
                                ans_json := inr (JObj o) |}) sample_state)
    = JStr "model 'llama9' not found" ∧
  ui_error (send_finish sample_String sample_null_read "http://localhost:3000" now
              (FetchAnswered {| ans_ok := true; ans_status := 404;
                                ans_statusText := "Not Found";
                                ans_json := inr (JObj o) |}) sample_state)
    = JStr "Model not found".
Proof.
  intros o now.
  apply (ui_error_field_order sample_String sample_null_read
           "http://localhost:3000" now sample_state o
           "model 'llama9' not found" "Model not found" 404 "Not Found");
    [reflexivity | reflexivity | discriminate | discriminate | reflexivity].
Defined.

Lemma ui_unreadable_error_body_witness :
  let response := {| ans_ok := false; ans_status := 502;
                     ans_statusText := "Bad Gateway";
                     ans_json := inl (Error_ "Unexpected token < in JSON at position 0") |} in
  let now := "2024-01-01T00:00:05.000Z" in
  ui_error (send_finish sample_String sample_null_read "http://localhost:3000" now
              (FetchAnswered response) sample_state)
    = JStr "Server error: 502 Bad Gateway" ∧
  ui_messages (send_finish sample_String sample_null_read "http://localhost:3000"
                 now (FetchAnswered response) sample_state)
    = ui_messages sample_state.
Proof.
  intros response now.
  refine (ui_unreadable_error_body sample_String sample_null_read
            "http://localhost:3000" now sample_state response _ _);
    [reflexivity | exact I].
Defined.

Lemma getApiUrl_leading_slash_witness :
  let config : gmap string value :=
    {[ "server" := JObj {[ "host" := JStr "192.168.1.5";
                           "port" := JNum 3000%float ]} ]} in
  let cannot := "Cannot destructure property 'host' of 'config.server' as it is undefined." in
  getApiUrl sample_String cannot config ("/" +:+ "api/chat")
    = Returned ("http://192.168.1.5:3000" +:+ "/" +:+ "api/chat") ∧
  (startsWith "api/chat" "/" = false →
   getApiUrl sample_String cannot config "api/chat"
     = Returned ("http://192.168.1.5:3000" +:+ "/" +:+ "api/chat")).
Proof.
  intros config cannot.
  apply (getApiUrl_leading_slash sample_String cannot config
           "http://192.168.1.5:3000" "api/chat").
  reflexivity.
Defined.

Lemma validate_partial_server_witness :
  let server : gmap string value := {[ "host" := JStr "192.168.1.5" ]} in
  let config : gmap string value := {[ "server" := JObj server ]} in
  let cannot := "Cannot destructure property 'host' of 'config.server' as it is undefined." in
  prop (validate config) "server"
    = JObj {[ "host" := JStr "localhost"; "port" := JNum 3000%float ]} ∧
  getApiBaseUrl sample_String cannot (validate config)
    = Returned ("http://localhost:" +:+ sample_String (JNum 3000%float)).
Proof.
  intros server config cannot.
  apply (validate_partial_server sample_String cannot config server);
    reflexivity.
Defined.
